(** * A peer-to-peer chat node (node.py): protocol handler, outbound
      operations and the pickled snapshot.

    The class [PureP2PNetwork] of node.py is embedded as functions over an
    explicit node state.  Every method that touches the socket, the
    keyboard, the clock or the data file takes the answers of the outside
    world as a [World] argument and records what it did in a trace, so each
    definition can be run on a concrete input. *)

From Stdlib Require Import ZArith Ascii String.
From stdpp Require Import gmap strings list fin_maps.
Set Warnings "-register-all".
Local Open Scope Z_scope.

(** ** Values *)

(** What [json.loads] can return.  Numbers are the integers; a number
    written with a fraction or an exponent is outside this embedding. *)
Inductive json : Type :=
  | JNull
  | JBool (b : bool)
  | JInt (z : Z)
  | JStr (s : string)
  | JArr (l : list json)
  | JObj (d : gmap string json).

(** Keys of a Python dict: the hashable values among the above.  [True]
    and [1] are one key, as are [False] and [0]. *)
Inductive pykey : Type :=
  | KNone
  | KInt (z : Z)
  | KStr (s : string).

#[global] Instance pykey_eq_dec : EqDecision pykey.
Proof. solve_decision. Defined.

Definition pykey_encode (k : pykey) : unit + Z + string :=
  match k with
  | KNone => inl (inl tt)
  | KInt z => inl (inr z)
  | KStr s => inr s
  end.

Definition pykey_decode (x : unit + Z + string) : pykey :=
  match x with
  | inl (inl _) => KNone
  | inl (inr z) => KInt z
  | inr s => KStr s
  end.

#[global] Instance pykey_countable : Countable pykey.
Proof.
  apply (inj_countable' pykey_encode pykey_decode).
  intros []; reflexivity.
Defined.

(** [hash(v)] succeeds on everything but lists and dicts. *)
Definition to_key (v : json) : option pykey :=
  match v with
  | JNull => Some KNone
  | JBool b => Some (KInt (if b then 1 else 0))
  | JInt z => Some (KInt z)
  | JStr s => Some (KStr s)
  | JArr _ | JObj _ => None
  end.

(** The value a function call leaves: functions without a [return]
    statement leave [None]. *)
Inductive pyval : Type :=
  | PyNone
  | PyBool (b : bool).

Inductive exn : Type :=
  | AttributeError
  | KeyError
  | TypeError
  | ValueError          (* json.JSONDecodeError, UnicodeDecodeError *)
  | OSError             (* socket errors *)
  | EOFError
  | KeyboardInterrupt.

(** ** Strings

    A Python [str] is held as its UTF-8 bytes, so a character takes one to
    four bytes of a [string]. *)

(** [str.lower] moves the letters A to Z; it is used only to compare its
    result with [y] and with [exit].  No other character of Unicode
    lowers to one of the letters e, i, t, x or y alone (U+0130 lowers to
    an i followed by a combining dot), so both comparisons come out as
    they do in Python on every text when only the bytes 65 to 90 are
    moved. *)
Definition lower_char (c : ascii) : ascii :=
  let n := nat_of_ascii c in
  if ((65 <=? n) && (n <=? 90))%nat then ascii_of_nat (n + 32) else c.

Fixpoint lower (s : string) : string :=
  match s with
  | EmptyString => EmptyString
  | String c s' => String (lower_char c) (lower s')
  end.

(** The white space of [str.strip] and [str.isspace], by the bytes that
    write it.  One byte: U+0009 to U+000D, U+001C to U+001F and the blank
    U+0020. *)
Definition space1 (a : ascii) : bool :=
  let n := nat_of_ascii a in
  (((9 <=? n) && (n <=? 13)) || ((28 <=? n) && (n <=? 32)))%nat.

(** Two bytes: U+0085 and U+00A0, the bytes C2 85 and C2 A0. *)
Definition space2 (a b : ascii) : bool :=
  let x := nat_of_ascii a in
  let y := nat_of_ascii b in
  ((x =? 194) && ((y =? 133) || (y =? 160)))%nat.

(** Three bytes: U+1680 (E1 9A 80); U+2000 to U+200A, U+2028, U+2029 and
    U+202F (E2 80 followed by 80 to 8A, A8, A9 or AF); U+205F (E2 81 9F);
    U+3000 (E3 80 80). *)
Definition space3 (a b c : ascii) : bool :=
  let x := nat_of_ascii a in
  let y := nat_of_ascii b in
  let z := nat_of_ascii c in
  (((x =? 225) && (y =? 154) && (z =? 128))
   || ((x =? 226) && (y =? 128)
       && (((128 <=? z) && (z <=? 138)) || (z =? 168) || (z =? 169)
           || (z =? 175)))
   || ((x =? 226) && (y =? 129) && (z =? 159))
   || ((x =? 227) && (y =? 128) && (z =? 128)))%nat.

(** Drop the white-space characters that a text begins with, where [two]
    and [three] tell the characters of two and of three bytes. *)
Fixpoint skip_blanks (two : ascii -> ascii -> bool)
  (three : ascii -> ascii -> ascii -> bool) (s : string) : string :=
  match s with
  | EmptyString => EmptyString
  | String a s1 =>
      if space1 a then skip_blanks two three s1
      else match s1 with
           | String b s2 =>
               if two a b then skip_blanks two three s2
               else match s2 with
                    | String c s3 =>
                        if three a b c then skip_blanks two three s3 else s
                    | EmptyString => s
                    end
           | EmptyString => s
           end
  end.

(** The same characters read from the end of a text towards its start:
    their bytes come in the opposite order. *)
Definition space2_back (b a : ascii) : bool := space2 a b.

Definition space3_back (c b a : ascii) : bool := space3 a b c.

(** [str.lstrip] *)
Definition lstrip (s : string) : string := skip_blanks space2 space3 s.

(** [str.rstrip] *)
Definition rstrip (s : string) : string :=
  String.rev (skip_blanks space2_back space3_back (String.rev s)).

(** [str.strip] *)
Definition strip (s : string) : string := rstrip (lstrip s).

(** [len]: the number of characters, that is of the bytes that do not
    continue a character (80 to BF). *)
Fixpoint char_count (s : string) : nat :=
  match s with
  | EmptyString => O
  | String a s' =>
      let n := nat_of_ascii a in
      ((if (128 <=? n) && (n <=? 191) then 0 else 1) + char_count s')%nat
  end.

(** ** Data held by the node *)

(** A value of [self.friends]: the dict [{'ip', 'port', 'connected'}].  The
    address is kept as it arrived in the message, unchecked. *)
Record FriendRecord : Type := {
  fr_ip : json;
  fr_port : json;
  fr_connected : bool
}.

Inductive direction : Type := incoming | outgoing.

(** An element of a conversation: the dict
    [{'time', 'from', 'content', 'direction'}]. *)
Record Message : Type := {
  msg_time : string;
  msg_from : json;
  msg_content : json;
  msg_direction : direction
}.

(** The dict that [save_data] pickles.  [load_data] reads each key with a
    default, so each may be missing from a file. *)
Record pickled : Type := {
  p_friends : option (gmap pykey FriendRecord);
  p_conversations : option (gmap pykey (list Message));
  p_friend_requests : option (gmap string (string * Z))
}.

(** [p2p_data.pkl]: absent, present but not loadable, or a pickled dict. *)
Inductive file : Type :=
  | NoFile
  | Unreadable
  | Pickled (d : pickled).

(** The dict handed to [send_direct_message]. *)
Inductive wire : Type :=
  | friend_request (from_user : string) (from_ip : string) (from_port : Z)
  | friend_accept (from_user : string)
  | friend_reject (from_user : string)
  | chat_message (from_user : string) (content : string).

(** The lines the node prints, one constructor per [print] of node.py. *)
Inductive notice : Type :=
  | Loaded (nfriends nconversations : nat)            (* load_data *)
  | CouldNotLoad                                      (* load_data *)
  | FriendRequestFrom (from_user : json)
  | NowYourFriend (from_user : json)
  | RejectedUser (from_user : json)
  | Prompt                                            (* "p2p> " *)
  | AcceptedYourRequest (from_user : json)
  | RejectedYourRequest (from_user : json)
  | IncomingChat (timestamp : string) (from_user content : json)
  | RequestSent (username : string)                   (* add_friend *)
  | CouldNotConnect (username : string)               (* add_friend *)
  | NotYourFriend (username : string)                 (* chat_with_friend *)
  | ChatHeader (username : string)
  | Rule                                              (* "-" * 50 *)
  | HistoryLine (m : Message) (username : string)
  | NoMessagesYet
  | LeftChat
  | YouSaid (message : string)
  | MessageFailed
  | ErrorNotice (e : exn).

(** What the node does to the outside, in order. *)
Inductive effect : Type :=
  | Print (n : notice)
  | Input (prompt : string)                           (* a call of input() *)
  | Sent (ip port : json) (m : wire) (ok : bool)      (* one-shot send *)
  | Closed.                                           (* client_socket.close() *)

(** The fields of [PureP2PNetwork] that the methods below read or write,
    the data file and the trace.  [username] is the name chosen by
    [setup_username], which [run] calls before the server starts. *)
Record Node : Type := {
  username : string;
  port : Z;
  friends : gmap pykey FriendRecord;
  friend_requests : gmap string (string * Z);
  conversations : gmap pykey (list Message);
  current_chat : option string;
  data_file : file;
  trace : list effect
}.

Definition set_friends (f : gmap pykey FriendRecord) (st : Node) : Node :=
  {| username := username st; port := port st; friends := f;
     friend_requests := friend_requests st;
     conversations := conversations st; current_chat := current_chat st;
     data_file := data_file st; trace := trace st |}.

Definition set_friend_requests (r : gmap string (string * Z)) (st : Node) : Node :=
  {| username := username st; port := port st; friends := friends st;
     friend_requests := r;
     conversations := conversations st; current_chat := current_chat st;
     data_file := data_file st; trace := trace st |}.

Definition set_conversations (c : gmap pykey (list Message)) (st : Node) : Node :=
  {| username := username st; port := port st; friends := friends st;
     friend_requests := friend_requests st;
     conversations := c; current_chat := current_chat st;
     data_file := data_file st; trace := trace st |}.

Definition set_current_chat (c : option string) (st : Node) : Node :=
  {| username := username st; port := port st; friends := friends st;
     friend_requests := friend_requests st;
     conversations := conversations st; current_chat := c;
     data_file := data_file st; trace := trace st |}.

Definition set_data_file (f : file) (st : Node) : Node :=
  {| username := username st; port := port st; friends := friends st;
     friend_requests := friend_requests st;
     conversations := conversations st; current_chat := current_chat st;
     data_file := f; trace := trace st |}.

Definition log (e : effect) (st : Node) : Node :=
  {| username := username st; port := port st; friends := friends st;
     friend_requests := friend_requests st;
     conversations := conversations st; current_chat := current_chat st;
     data_file := data_file st; trace := trace st ++ [e] |}.

(** ** The outside world *)

Inductive stdin_event : Type :=
  | Line (s : string)
  | Eof
  | Interrupt.

Inductive save_outcome : Type :=
  | SaveOk
  | SaveFails (remains : file). (* open or dump raised; [remains] is on disk *)

(** The answers the world gives during one step of the node: the next
    keyboard event, whether the next one-shot send goes through, how the
    next write of the data file ends, the clock, and the address that
    [get_local_ip] finds ([None] when its probe raises). *)
Record World : Type := {
  stdin : stdin_event;
  connects : bool;
  disk : save_outcome;
  now : string;
  probe_ip : option string
}.

(** ** Statements that can raise *)

Inductive result (A : Type) : Type :=
  | Ok (a : A)
  | Raise (e : exn).
Arguments Ok {A} a.
Arguments Raise {A} e.

(** A method body: it reads and writes the node and either finishes with
    a value or raises.  What was written before a [raise] stays written. *)
Definition M (A : Type) : Type := Node -> result A * Node.

Definition ret {A} (a : A) : M A := fun st => (Ok a, st).

Definition raise {A} (e : exn) : M A := fun st => (Raise e, st).

Definition bind {A B} (c : M A) (k : A -> M B) : M B :=
  fun st =>
    match c st with
    | (Ok a, st') => k a st'
    | (Raise e, st') => (Raise e, st')
    end.

Notation "x <- c ;; k" := (bind c (fun x => k))
  (at level 100, c at next level, right associativity).
Notation "c ;; k" := (bind c (fun _ => k))
  (at level 100, right associativity).

Definition gets {A} (f : Node -> A) : M A := fun st => (Ok (f st), st).

Definition modify (f : Node -> Node) : M unit := fun st => (Ok tt, f st).

Definition print (n : notice) : M unit := modify (log (Print n)).

(** [input(prompt)] *)
Definition input (w : World) (prompt : string) : M string :=
  modify (log (Input prompt)) ;;
  match stdin w with
  | Line s => ret s
  | Eof => raise EOFError
  | Interrupt => raise KeyboardInterrupt
  end.

(** [message.get(key)]: only a dict has the method. *)
Definition get_method (message : json) (key : string) : M (option json) :=
  match message with
  | JObj d => ret (d !! key)
  | _ => raise AttributeError
  end.

(** [message[key]] *)
Definition subscript (message : json) (key : string) : M json :=
  match message with
  | JObj d =>
      match d !! key with
      | Some v => ret v
      | None => raise KeyError
      end
  | _ => raise TypeError
  end.

(** [msg_type == 'literal'] *)
Definition is_str (v : option json) (literal : string) : bool :=
  match v with
  | Some (JStr s) => String.eqb s literal
  | _ => false
  end.

(** [hash(v)], as a dict does before a lookup or a store. *)
Definition hash (v : json) : M pykey :=
  match to_key v with
  | Some k => ret k
  | None => raise TypeError
  end.

(** [self.current_chat != from_user], where [current_chat] is [None] or a
    str. *)
Definition chat_differs (cur : option string) (from_user : json) : bool :=
  match cur, from_user with
  | None, JNull => false
  | Some c, JStr u => negb (String.eqb c u)
  | _, _ => true
  end.

(** ** Persistence *)

Definition snapshot (st : Node) : pickled :=
  {| p_friends := Some (friends st);
     p_conversations := Some (conversations st);
     p_friend_requests := Some (friend_requests st) |}.

(** What is on disk once the world has dealt with a write of [data]. *)
Definition written (w : World) (data : pickled) : file :=
  match disk w with
  | SaveOk => Pickled data
  | SaveFails remains => remains
  end.

(** [save_data]: pickles the three maps over the data file; an error is
    swallowed. *)
Definition save_data (w : World) : M unit :=
  modify (fun st => set_data_file (written w (snapshot st)) st).

(** [load_data] *)
Definition load_data : M unit :=
  f <- gets data_file ;;
  match f with
  | NoFile => ret tt
  | Unreadable => print CouldNotLoad
  | Pickled data =>
      modify (set_friends (default ∅ (p_friends data))) ;;
      modify (set_conversations (default ∅ (p_conversations data))) ;;
      modify (set_friend_requests (default ∅ (p_friend_requests data))) ;;
      nf <- gets (fun st => size (friends st)) ;;
      nc <- gets (fun st => size (conversations st)) ;;
      print (Loaded nf nc)
  end.

(** [__init__], with the name that [setup_username] stores next. *)
Definition init (name : string) (on_disk : file) : Node :=
  snd (load_data
    {| username := name; port := 55888; friends := ∅; friend_requests := ∅;
       conversations := ∅; current_chat := None; data_file := on_disk;
       trace := [] |}).

(** ** Sending *)

(** [send_direct_message]: connect, send, close; [True] when all three
    went through, [False] when any raised. *)
Definition send_direct_message (w : World) (ip port : json) (message : wire)
  : M bool :=
  modify (log (Sent ip port message (connects w))) ;;
  ret (connects w).

(** [get_local_ip] *)
Definition get_local_ip (w : World) : string :=
  match probe_ip w with
  | Some ip => ip
  | None => "127.0.0.1"
  end.

(** ** The message router *)

(** [self.conversations[key].append(m)] *)
Definition append_message (key : pykey) (m : Message) : M unit :=
  convs <- gets conversations ;;
  match convs !! key with
  | Some l => modify (set_conversations (<[key := l ++ [m]]> convs))
  | None => raise KeyError
  end.

(** [process_incoming_message]; the socket argument is not used by the
    method. *)
Definition process_incoming_message (w : World) (message : json) : M unit :=
  msg_type <- get_method message "type" ;;
  if is_str msg_type "friend_request" then
    from_user <- subscript message "from_user" ;;
    from_ip <- subscript message "from_ip" ;;
    from_port <- subscript message "from_port" ;;
    print (FriendRequestFrom from_user) ;;
    answer <- input w "Accept? (y/n): " ;;
    let response := strip (lower answer) in
    (if String.eqb response "y" then
       key <- hash from_user ;;
       fs <- gets friends ;;
       modify (set_friends
         (<[key := {| fr_ip := from_ip; fr_port := from_port;
                      fr_connected := true |}]> fs)) ;;
       save_data w ;;
       me <- gets username ;;
       send_direct_message w from_ip from_port (friend_accept me) ;;
       print (NowYourFriend from_user)
     else
       me <- gets username ;;
       send_direct_message w from_ip from_port (friend_reject me) ;;
       print (RejectedUser from_user)) ;;
    print Prompt
  else if is_str msg_type "friend_accept" then
    from_user <- subscript message "from_user" ;;
    print (AcceptedYourRequest from_user) ;;
    print Prompt
  else if is_str msg_type "friend_reject" then
    from_user <- subscript message "from_user" ;;
    print (RejectedYourRequest from_user) ;;
    print Prompt
  else if is_str msg_type "chat_message" then
    from_user <- subscript message "from_user" ;;
    content <- subscript message "content" ;;
    let timestamp := now w in
    key <- hash from_user ;;
    convs <- gets conversations ;;
    (if decide (is_Some (convs !! key)) then ret tt
     else modify (set_conversations (<[key := []]> convs))) ;;
    append_message key
      {| msg_time := timestamp; msg_from := from_user;
         msg_content := content; msg_direction := incoming |} ;;
    save_data w ;;
    cur <- gets current_chat ;;
    (if chat_differs cur from_user then
       print (IncomingChat timestamp from_user content)
     else ret tt) ;;
    print Prompt
  else ret tt.

(** ** Outbound operations *)

(** [add_friend]; it has no [return] statement. *)
Definition add_friend (w : World) (name peer_ip : string) (peer_port : Z)
  : M pyval :=
  me <- gets username ;;
  my_port <- gets port ;;
  success <- send_direct_message w (JStr peer_ip) (JInt peer_port)
               (friend_request me (get_local_ip w) my_port) ;;
  (if success then
     print (RequestSent name) ;;
     reqs <- gets friend_requests ;;
     modify (set_friend_requests (<[name := (peer_ip, peer_port)]> reqs)) ;;
     save_data w
   else
     print (CouldNotConnect name)) ;;
  ret PyNone.

Fixpoint for_each {A} (l : list A) (body : A -> M unit) : M unit :=
  match l with
  | [] => ret tt
  | x :: l' => body x ;; for_each l' body
  end.

(** [show_conversation]: the last 20 messages, or a line saying there are
    none. *)
Definition show_conversation (name : string) : M unit :=
  convs <- gets conversations ;;
  match convs !! KStr name with
  | Some (m :: l) =>
      for_each (drop (length (m :: l) - 20)%nat (m :: l))
        (fun msg => print (HistoryLine msg name))
  | _ => print NoMessagesYet
  end ;;
  print Rule.

(** The body of [if message:] in the loop of [chat_with_friend]: send one
    line of chat and record the outcome.  [friend_info] is the dict read
    from [self.friends] when the chat was opened; only its address is read
    here, and no statement of the program changes the address of an
    existing record. *)
Definition chat_send (w : World) (name : string) (friend_info : FriendRecord)
  (message : string) : M unit :=
  me <- gets username ;;
  success <- send_direct_message w (fr_ip friend_info) (fr_port friend_info)
               (chat_message me message) ;;
  if success then
    convs <- gets conversations ;;
    (if decide (is_Some (convs !! KStr name)) then ret tt
     else modify (set_conversations (<[KStr name := []]> convs))) ;;
    me <- gets username ;;
    append_message (KStr name)
      {| msg_time := now w; msg_from := JStr me;
         msg_content := JStr message; msg_direction := outgoing |} ;;
    save_data w ;;
    print (YouSaid message)
  else
    print MessageFailed ;;
    fs <- gets friends ;;
    match fs !! KStr name with
    | Some fr =>
        modify (set_friends
          (<[KStr name := {| fr_ip := fr_ip fr; fr_port := fr_port fr;
                             fr_connected := false |}]> fs))
    | None => raise KeyError
    end.

Inductive control : Type := Continue | Break.

(** One pass through the [try] block of the chat loop. *)
Definition chat_turn (w : World) (name : string) (friend_info : FriendRecord)
  : M control :=
  line <- input w "" ;;
  let message := strip line in
  if String.eqb (lower message) "exit" then
    modify (set_current_chat None) ;;
    print LeftChat ;;
    ret Break
  else
    (if negb (String.eqb message "") then chat_send w name friend_info message
     else ret tt) ;;
    ret Continue.

(** How a call that reads the keyboard stands once the supplied events are
    used up: it has returned, it has raised, or it waits in [input()]. *)
Inductive call : Type :=
  | Returned (v : pyval)
  | Raised (e : exn)
  | AwaitingInput.

(** The [while] loop of [chat_with_friend] with its two [except] clauses;
    each pass takes one [World]. *)
Fixpoint chat_loop (name : string) (friend_info : FriendRecord)
  (ws : list World) (st : Node) : call * Node :=
  if decide (current_chat st = Some name) then
    match ws with
    | [] => (AwaitingInput, st)
    | w :: ws' =>
        match chat_turn w name friend_info st with
        | (Ok Break, st') => (Returned PyNone, st')
        | (Ok Continue, st') => chat_loop name friend_info ws' st'
        | (Raise KeyboardInterrupt, st') =>
            (Returned PyNone, log (Print LeftChat) (set_current_chat None st'))
        | (Raise e, st') =>
            chat_loop name friend_info ws' (log (Print (ErrorNotice e)) st')
        end
    end
  else (Returned PyNone, st).

(** [chat_with_friend] *)
Definition chat_with_friend (name : string) (ws : list World) (st : Node)
  : call * Node :=
  match friends st !! KStr name with
  | None => (Returned PyNone, log (Print (NotYourFriend name)) st)
  | Some friend_info =>
      let opened :=
        modify (set_current_chat (Some name)) ;;
        print (ChatHeader name) ;;
        print Rule ;;
        show_conversation name in
      match opened st with
      | (Ok _, st') => chat_loop name friend_info ws st'
      | (Raise e, st') => (Raised e, st')
      end
  end.

(** ** One inbound connection *)

Section Connection.

(** [json.loads]: [None] when it raises. *)
Variable json_loads : string -> option json.

(** The [try] block of [handle_connection].  [rx] is the text that
    [client_socket.recv(4096).decode()] yields, [None] when either call
    raises. *)
Definition read_and_dispatch (w : World) (rx : option string) : M unit :=
  data <- match rx with
          | Some text => ret text
          | None => raise OSError
          end ;;
  if negb (String.eqb data "") then
    message <- match json_loads data with
               | Some v => ret v
               | None => raise ValueError
               end ;;
    process_incoming_message w message
  else ret tt.

(** [handle_connection]: whatever the block does, the error is dropped
    and the socket is closed. *)
Definition handle_connection (w : World) (rx : option string) (st : Node)
  : Node :=
  log Closed (snd (read_and_dispatch w rx st)).

End Connection.

(** ** The wire protocol, as the specification lists it *)

Definition has_fields (d : gmap string json) (keys : list string) : bool :=
  forallb (fun key => bool_decide (is_Some (d !! key))) keys.

(** Follows the specification's table of message fields by type:
    [friend_request] carries [from_user], [from_ip] and [from_port];
    [friend_accept] and [friend_reject] carry [from_user]; [chat_message]
    carries [from_user] and [content]. *)
Definition protocol_message (v : json) : bool :=
  match v with
  | JObj d =>
      match d !! "type" with
      | Some (JStr t) =>
          if String.eqb t "friend_request"
          then has_fields d ["from_user"; "from_ip"; "from_port"]
          else if String.eqb t "friend_accept" then has_fields d ["from_user"]
          else if String.eqb t "friend_reject" then has_fields d ["from_user"]
          else if String.eqb t "chat_message"
          then has_fields d ["from_user"; "content"]
          else false
      | _ => false
      end
  | _ => false
  end.

(** The messages exchanged with a peer: the entry of [self.conversations],
    empty when there is none ([show_conversation] treats both alike). *)
Definition conversation_of (st : Node) (key : pykey) : list Message :=
  default [] (conversations st !! key).

(** Two nodes that differ at most in what they have printed, asked and
    sent. *)
Definition same_data (st st' : Node) : Prop :=
  username st' = username st /\ port st' = port st /\
  friends st' = friends st /\ friend_requests st' = friend_requests st /\
  conversations st' = conversations st /\
  current_chat st' = current_chat st /\ data_file st' = data_file st.

(** What one read of an inbound connection amounts to: the protocol
    message it decodes to, or [None] when the read fails or is empty, when
    the text is not JSON, or when the JSON value is not one of the four
    messages with its fields. *)
Definition received_message (json_loads : string -> option json)
  (rx : option string) : option json :=
  match rx with
  | Some text =>
      if String.eqb text "" then None
      else match json_loads text with
           | Some v => if protocol_message v then Some v else None
           | None => None
           end
  | None => None
  end.

(** ** Sample inputs *)

Module Sample.

Definition calm : World :=
  {| stdin := Line " Y "; connects := true; disk := SaveOk;
     now := "12:00:00"; probe_ip := Some "10.0.0.1" |}.

Definition offline : World :=
  {| stdin := Line "hello"; connects := false; disk := SaveOk;
     now := "12:00:05"; probe_ip := None |}.

Definition typing (text : string) (ok : bool) : World :=
  {| stdin := Line text; connects := ok; disk := SaveOk;
     now := "12:00:07"; probe_ip := None |}.

(** alice, just started, nothing on disk. *)
Definition alice : Node := init "alice" NoFile.

(** alice after [add_friend("bob", "10.0.0.5", 55888)] went through. *)
Definition alice_waiting : Node :=
  snd (add_friend calm "bob" "10.0.0.5" 55888 alice).

Definition request_from_bob : json :=
  JObj {[ "type" := JStr "friend_request"; "from_user" := JStr "bob";
          "from_ip" := JStr "10.0.0.5"; "from_port" := JInt 55888 ]}.

Definition accept_from_bob : json :=
  JObj {[ "type" := JStr "friend_accept"; "from_user" := JStr "bob" ]}.

Definition reject_from_bob : json :=
  JObj {[ "type" := JStr "friend_reject"; "from_user" := JStr "bob" ]}.

Definition chat_from_bob : json :=
  JObj {[ "type" := JStr "chat_message"; "from_user" := JStr "bob";
          "content" := JStr "hi" ]}.

(** alice once she has accepted bob's request. *)
Definition alice_with_bob : Node :=
  snd (process_incoming_message calm request_from_bob alice).

(** [json.loads] on four texts, enough to run [handle_connection]. *)
Definition loads (text : string) : option json :=
  if String.eqb text "null" then Some JNull
  else if String.eqb text "[1, 2]" then Some (JArr [JInt 1; JInt 2])
  else if String.eqb text "{}" then Some (JObj ∅)
  else if String.eqb text "17" then Some (JInt 17)
  else None.

End Sample.

(** ** Relations between a node before and after a step *)

(** What one pass of the message router may do to a node: it leaves the
    pending requests, the current chat and the identity alone; it stores
    at most one friend record and appends at most one message; and either
    it stores nothing or it writes the data file after storing. *)
Definition router_frame (w : World) (st st' : Node) : Prop :=
  friend_requests st' = friend_requests st /\
  current_chat st' = current_chat st /\
  username st' = username st /\ port st' = port st /\
  (friends st' = friends st \/
   exists key ip port,
     friends st'
       = <[key := {| fr_ip := ip; fr_port := port; fr_connected := true |}]>
           (friends st)) /\
  (conversations st' = conversations st \/
   exists key m,
     conversations st'
       = <[key := conversation_of st key ++ [m]]> (conversations st)) /\
  ((friends st' = friends st /\ conversations st' = conversations st /\
    data_file st' = data_file st) \/
   data_file st' = written w (snapshot st')) /\
  exists out, trace st' = trace st ++ out.

(** The data file holds what the node holds. *)
Definition in_sync (st : Node) : Prop :=
  data_file st = Pickled (snapshot st).

(** The dict given to [send_direct_message], as [json.loads] hands it to
    the peer that receives the bytes of [json.dumps]. *)
Definition wire_json (m : wire) : json :=
  match m with
  | friend_request from_user from_ip from_port =>
      JObj {[ "type" := JStr "friend_request";
              "from_user" := JStr from_user;
              "from_ip" := JStr from_ip;
              "from_port" := JInt from_port ]}
  | friend_accept from_user =>
      JObj {[ "type" := JStr "friend_accept"; "from_user" := JStr from_user ]}
  | friend_reject from_user =>
      JObj {[ "type" := JStr "friend_reject"; "from_user" := JStr from_user ]}
  | chat_message from_user content =>
      JObj {[ "type" := JStr "chat_message"; "from_user" := JStr from_user;
              "content" := JStr content ]}
  end.

(** The same world with another fate for the next write of the data
    file. *)
Definition with_disk (o : save_outcome) (w : World) : World :=
  {| stdin := stdin w; connects := connects w; disk := o; now := now w;
     probe_ip := probe_ip w |}.

(** Two nodes that differ at most in the data file. *)
Definition same_but_file (st st' : Node) : Prop :=
  username st' = username st /\ port st' = port st /\
  friends st' = friends st /\ friend_requests st' = friend_requests st /\
  conversations st' = conversations st /\
  current_chat st' = current_chat st /\ trace st' = trace st.

(** A friend record that kept its address and did not come back online. *)
Definition faded (before after : FriendRecord) : Prop :=
  fr_ip after = fr_ip before /\ fr_port after = fr_port before /\
  (fr_connected after = true -> fr_connected before = true).

(** A message that the local user sent. *)
Definition sent_by (me : string) (m : Message) : Prop :=
  msg_direction m = outgoing /\ msg_from m = JStr me.

(** What a chat session may do to a node: friends keep their addresses
    and none is added, removed or marked connected; only the conversation
    with the partner grows, by outgoing messages; the rest stays. *)
Definition chat_frame (name : string) (st st' : Node) : Prop :=
  friend_requests st' = friend_requests st /\
  username st' = username st /\ port st' = port st /\
  (forall key, option_Forall2 faded (friends st !! key) (friends st' !! key)) /\
  (forall key, key <> KStr name ->
     conversations st' !! key = conversations st !! key) /\
  (exists more,
     conversation_of st' (KStr name) = conversation_of st (KStr name) ++ more /\
     Forall (sent_by (username st)) more) /\
  (exists out, trace st' = trace st ++ out).

(** The lines that [show_conversation] prints before its closing rule:
    the last 20 messages, or the line saying there are none. *)
Definition history_lines (name : string) (st : Node) : list notice :=
  match conversations st !! KStr name with
  | Some (m :: l) =>
      map (fun msg => HistoryLine msg name)
        (drop (length (m :: l) - 20)%nat (m :: l))
  | _ => [NoMessagesYet]
  end.

Definition show (lines : list notice) (st : Node) : Node :=
  fold_left (fun s n => log (Print n) s) lines st.

(** The node as [chat_with_friend] leaves it on entering its loop. *)
Definition opened (name : string) (st : Node) : Node :=
  log (Print Rule)
    (show (history_lines name st)
       (log (Print Rule)
          (log (Print (ChatHeader name)) (set_current_chat (Some name) st)))).

Definition is_send (e : effect) : bool :=
  match e with
  | Sent _ _ _ _ => true
  | _ => false
  end.

(** ** The command layer *)

(** [s.startswith(prefix)] *)
Fixpoint startswith (prefix s : string) : bool :=
  match prefix, s with
  | EmptyString, _ => true
  | String a prefix', String b s' => Ascii.eqb a b && startswith prefix' s'
  | String _ _, EmptyString => false
  end.

(** [s[n:]] as the commands use it: after [startswith] has found a prefix
    of [n] characters of one byte each, where the [n] first characters are
    the [n] first bytes. *)
Fixpoint slice_from (n : nat) (s : string) : string :=
  match n, s with
  | O, _ => s
  | S n', String _ s' => slice_from n' s'
  | S _, EmptyString => EmptyString
  end.

(** Whether a text begins with a white-space character. *)
Definition blank_head (two : ascii -> ascii -> bool)
  (three : ascii -> ascii -> ascii -> bool) (s : string) : bool :=
  match s with
  | EmptyString => false
  | String a s1 =>
      space1 a
      || match s1 with
         | EmptyString => false
         | String b s2 =>
             two a b
             || match s2 with
                | EmptyString => false
                | String c _ => three a b c
                end
         end
  end.

Definition begins_blank (s : string) : bool := blank_head space2 space3 s.

Definition ends_blank (s : string) : bool :=
  blank_head space2_back space3_back (String.rev s).

(** The lines printed by [setup_username], [search_and_add],
    [show_friends], [show_help] and [run]; a run of [print] calls that
    always go together is one constructor. *)
Inductive line : Type :=
  | UsernameIs (name : string)
  | NodeIdIs (id : string)
  | UsernameRejected              (* "Username must be 3-20 characters" *)
  | Searching (query : string)
  | AddManually
  | AddInstructions               (* the four lines on what is needed *)
  | IpAndUsernameRequired
  | NoFriendsYet
  | FriendList (connected : gmap pykey bool)
      (* header, a line per friend with its status, rules; the order of
         the friends' lines is not recorded *)
  | Help (port : Z)
  | Goodbye
  | GoodbyeInterrupted            (* the same after an empty line *)
  | ChatUsage                     (* "Usage: chat username" *)
  | HistoryUsage                  (* "Usage: history username" *)
  | UnknownCommand
  | ErrorLine (e : exn).

(** The node with what the command layer adds: the node id, the
    [running] flag, and the lines it printed.  Each line is kept with the
    length of the node's trace when it was printed, which places it among
    the effects recorded there.  [world] holds the answers of the outside
    that are in force: those that came with the last key read. *)
Record Shell : Type := {
  node : Node;
  node_id : string;
  running : bool;
  world : World;
  screen : list (nat * line)
}.

Definition on_node (f : Node -> Node) (sh : Shell) : Shell :=
  {| node := f (node sh); node_id := node_id sh; running := running sh;
     world := world sh; screen := screen sh |}.

Definition say (l : line) (sh : Shell) : Shell :=
  {| node := node sh; node_id := node_id sh; running := running sh;
     world := world sh;
     screen := screen sh ++ [(length (trace (node sh)), l)] |}.

Definition set_running (b : bool) (sh : Shell) : Shell :=
  {| node := node sh; node_id := node_id sh; running := b;
     world := world sh; screen := screen sh |}.

Definition set_world (w : World) (sh : Shell) : Shell :=
  {| node := node sh; node_id := node_id sh; running := running sh;
     world := w; screen := screen sh |}.

Definition set_username (name : string) (st : Node) : Node :=
  {| username := name; port := port st; friends := friends st;
     friend_requests := friend_requests st;
     conversations := conversations st; current_chat := current_chat st;
     data_file := data_file st; trace := trace st |}.

(** Run a method of the node inside the shell. *)
Definition in_node {A} (c : M A) (sh : Shell) : result A * Shell :=
  let '(r, st) := c (node sh) in (r, on_node (fun _ => st) sh).

(** [input(prompt)] on the next key, whose world comes into force. *)
Definition ask (w : World) (prompt : string) (sh : Shell)
  : result string * Shell :=
  in_node (input w prompt) (set_world w sh).

(** [username and 3 <= len(username) <= 20] *)
Definition valid_username (name : string) : bool :=
  negb (String.eqb name "")
  && (3 <=? char_count name)%nat && (char_count name <=? 20)%nat.

(** [setup_username]: ask until the name typed is valid.  An error of
    [input] is not caught here. *)
Fixpoint setup_username (ws : list World) (sh : Shell) : call * Shell :=
  match ws with
  | [] => (AwaitingInput, sh)
  | w :: ws' =>
      match ask w "Choose your username: " sh with
      | (Ok answer, sh1) =>
          let name := strip answer in
          if valid_username name then
            (Returned PyNone,
             say (NodeIdIs (node_id sh1))
               (say (UsernameIs name) (on_node (set_username name) sh1)))
          else setup_username ws' (say UsernameRejected sh1)
      | (Raise e, sh1) => (Raised e, sh1)
      end
  end.

(** [show_friends] *)
Definition show_friends (sh : Shell) : Shell :=
  if (size (friends (node sh)) =? 0)%nat then say NoFriendsYet sh
  else say (FriendList (fr_connected <$> friends (node sh))) sh.

(** [show_help] *)
Definition show_help (sh : Shell) : Shell :=
  say (Help (port (node sh))) sh.

(** The prompt of [run]: a line feed, then [p2p> ]. *)
Definition run_prompt : string := String (ascii_of_nat 10) "p2p> ".

(** The first line of [search_and_add]: [if query:] holds for a string
    that is not empty. *)
Definition heading (query : option string) : line :=
  match query with
  | Some (String c q) => Searching (String c q)
  | _ => AddManually
  end.

Definition ip_prompt : string := "Enter friend's IP: ".
Definition port_prompt : string := "Enter friend's port (55888): ".
Definition name_prompt : string := "Enter friend's username: ".

Section Commands.

(** [int(text)]: [None] when it raises [ValueError]. *)
Variable int_of : string -> option Z.

(** [search_and_add]: three prompts, then [add_friend] when an address
    and a name were given.  The query is only printed. *)
Definition search_and_add (query : option string) (ws : list World)
  (sh : Shell) : call * Shell :=
  let sh0 := say AddInstructions (say (heading query) sh) in
  match ws with
  | [] => (AwaitingInput, sh0)
  | w1 :: ws1 =>
  match ask w1 ip_prompt sh0 with
  | (Raise e, sh1) => (Raised e, sh1)
  | (Ok answer1, sh1) =>
  match ws1 with
  | [] => (AwaitingInput, sh1)
  | w2 :: ws2 =>
  match ask w2 port_prompt sh1 with
  | (Raise e, sh2) => (Raised e, sh2)
  | (Ok answer2, sh2) =>
  match ws2 with
  | [] => (AwaitingInput, sh2)
  | w3 :: _ =>
  match ask w3 name_prompt sh2 with
  | (Raise e, sh3) => (Raised e, sh3)
  | (Ok answer3, sh3) =>
      let ip := strip answer1 in
      let port_text := strip answer2 in
      let name := strip answer3 in
      match (if String.eqb port_text "" then Some 55888
             else int_of port_text) with
      | None => (Raised ValueError, sh3)
      | Some peer_port =>
          if negb (String.eqb ip "") && negb (String.eqb name "") then
            match in_node (add_friend (world sh3) name ip peer_port) sh3 with
            | (Ok _, sh4) => (Returned PyNone, sh4)
            | (Raise e, sh4) => (Raised e, sh4)
            end
          else (Returned PyNone, say IpAndUsernameRequired sh3)
      end
  end end end end end end.

(** How one pass through the loop of [run] ends. *)
Inductive step : Type :=
  | GoesOn          (* the loop takes its next pass *)
  | Ends            (* [break] *)
  | Waits.          (* a call inside the pass waits in [input()] *)

(** The two [except] clauses of the loop of [run]. *)
Definition after_call (outcome : call * Shell) : step * Shell :=
  match outcome with
  | (Returned _, sh) => (GoesOn, sh)
  | (AwaitingInput, sh) => (Waits, sh)
  | (Raised KeyboardInterrupt, sh) =>
      let sh1 := set_running false (say GoodbyeInterrupted sh) in
      (Ends, snd (in_node (save_data (world sh1)) sh1))
  | (Raised e, sh) => (GoesOn, say (ErrorLine e) sh)
  end.

(** The command read, dispatched. *)
Definition run_command (command : string) (rest : list World) (sh : Shell)
  : step * Shell :=
  if String.eqb command "exit" then
    let sh1 := set_running false sh in
    (Ends, say Goodbye (snd (in_node (save_data (world sh1)) sh1)))
  else if String.eqb command "add" then
    after_call (search_and_add None rest sh)
  else if startswith "search " command then
    let query := strip (slice_from 7 command) in
    after_call (search_and_add (Some query) rest sh)
  else if startswith "chat " command then
    let name := strip (slice_from 5 command) in
    if negb (String.eqb name "") then
      match chat_with_friend name rest (node sh) with
      | (outcome, st) => after_call (outcome, on_node (fun _ => st) sh)
      end
    else (GoesOn, say ChatUsage sh)
  else if startswith "history " command then
    let name := strip (slice_from 8 command) in
    if negb (String.eqb name "") then
      match in_node (show_conversation name) sh with
      | (Ok _, sh1) => (GoesOn, sh1)
      | (Raise e, sh1) => after_call (Raised e, sh1)
      end
    else (GoesOn, say HistoryUsage sh)
  else if String.eqb command "friends" then (GoesOn, show_friends sh)
  else if String.eqb command "help" then (GoesOn, show_help sh)
  else (GoesOn, say UnknownCommand sh).

(** One pass through the loop of [run].  While a chat is open the pass
    only sleeps; otherwise it reads a command from the key of [w] and
    carries it out, the calls inside reading on from [rest]. *)
Definition run_turn (w : World) (rest : list World) (sh : Shell)
  : step * Shell :=
  match current_chat (node sh) with
  | Some (String _ _) => (GoesOn, sh)
  | _ =>
      match ask w run_prompt sh with
      | (Ok answer, sh1) => run_command (strip answer) rest sh1
      | (Raise e, sh1) => after_call (Raised e, sh1)
      end
  end.

End Commands.

(** No usage line on the screen. *)
Definition usage_free (sh : Shell) : Prop :=
  Forall (fun shown => snd shown <> ChatUsage /\ snd shown <> HistoryUsage)
    (screen sh).

(** The node once [search_and_add] has read its three answers. *)
Definition prompted (st : Node) : Node :=
  log (Input name_prompt) (log (Input port_prompt) (log (Input ip_prompt) st)).

(** ** More sample inputs *)

Module Scene.

(** The double quote. *)
Definition quote : string := String (ascii_of_nat 34) EmptyString.

Definition quoted (s : string) : string := quote +:+ s +:+ quote.

(** The bytes of a chat message from bob saying hi. *)
Definition chat_text : string :=
  "{" +:+ quoted "type" +:+ ": " +:+ quoted "chat_message" +:+ ", "
      +:+ quoted "from_user" +:+ ": " +:+ quoted "bob" +:+ ", "
      +:+ quoted "content" +:+ ": " +:+ quoted "hi" +:+ "}".

(** A friend request whose sender is a list. *)
Definition request_from_list : json :=
  JObj {[ "type" := JStr "friend_request"; "from_user" := JArr [JStr "bob"];
          "from_ip" := JStr "10.0.0.5"; "from_port" := JInt 55888 ]}.

(** Its bytes. *)
Definition request_list_text : string :=
  "{" +:+ quoted "type" +:+ ": " +:+ quoted "friend_request" +:+ ", "
      +:+ quoted "from_user" +:+ ": [" +:+ quoted "bob" +:+ "], "
      +:+ quoted "from_ip" +:+ ": " +:+ quoted "10.0.0.5" +:+ ", "
      +:+ quoted "from_port" +:+ ": 55888}".

(** [json.loads] on those two texts and on the four of [Sample.loads]. *)
Definition loads (text : string) : option json :=
  if String.eqb text chat_text then Some Sample.chat_from_bob
  else if String.eqb text request_list_text then Some request_from_list
  else Sample.loads text.

Definition refusing : World :=
  {| stdin := Line "n"; connects := true; disk := SaveOk;
     now := "12:00:10"; probe_ip := Some "10.0.0.1" |}.

Definition at_eof : World :=
  {| stdin := Eof; connects := true; disk := SaveOk;
     now := "12:00:11"; probe_ip := None |}.

Definition interrupted : World :=
  {| stdin := Interrupt; connects := true; disk := SaveOk;
     now := "12:00:12"; probe_ip := None |}.

(** A chat message whose sender is a list. *)
Definition chat_from_list : json :=
  JObj {[ "type" := JStr "chat_message"; "from_user" := JArr [JStr "bob"];
          "content" := JStr "hi" ]}.

(** bob, just started on 10.0.0.5. *)
Definition bob : Node := init "bob" NoFile.

(** alice in a chat with bob. *)
Definition alice_chatting : Node :=
  snd (chat_with_friend "bob" [] Sample.alice_with_bob).

(** The shell before [setup_username], on a node without a name. *)
Definition console : Shell :=
  {| node := init "" NoFile; node_id := "1a2b3c4d"; running := true;
     world := Sample.calm; screen := [] |}.

(** alice at the prompt, bob among her friends. *)
Definition alice_console : Shell :=
  {| node := Sample.alice_with_bob; node_id := "1a2b3c4d"; running := true;
     world := Sample.calm; screen := [] |}.

(** U+00A0, the no-break space, as its two bytes. *)
Definition no_break_space : string :=
  String (ascii_of_nat 194) (String (ascii_of_nat 160) EmptyString).

(** [int] on three texts. *)
Definition int_of (text : string) : option Z :=
  if String.eqb text "55888" then Some 55888
  else if String.eqb text "8080" then Some 8080
  else if String.eqb text "0" then Some 0
  else None.

End Scene.


(** * Properties *)

(** ** Running the monad *)

Lemma bind_ok {A B} (c : M A) (k : A -> M B) st a st' :
  c st = (Ok a, st') -> bind c k st = k a st'.
Proof. intros H. unfold bind. rewrite H. reflexivity. Qed.

Lemma bind_raise {A B} (c : M A) (k : A -> M B) st e st' :
  c st = (Raise e, st') -> bind c k st = (Raise e, st').
Proof. intros H. unfold bind. rewrite H. reflexivity. Qed.

Ltac run :=
  unfold get_method, subscript, hash, input, print, save_data, gets, modify,
    send_direct_message, append_message, bind, ret, raise in *;
  cbn in *.

Lemma same_data_refl st : same_data st st.
Proof. repeat split. Qed.

Lemma same_data_log e st : same_data st (log e st).
Proof. repeat split. Qed.

Lemma same_data_trans st1 st2 st3 :
  same_data st1 st2 -> same_data st2 st3 -> same_data st1 st3.
Proof.
  unfold same_data. intros (?&?&?&?&?&?&?) (?&?&?&?&?&?&?).
  repeat split; congruence.
Qed.

Lemma written_ok w data : disk w = SaveOk -> written w data = Pickled data.
Proof. unfold written. intros ->. reflexivity. Qed.

(** ** Replies to a friend request: [friend_accept] and [friend_reject] *)

(** A reply only prints: two lines when it names its sender, nothing when
    it does not (the [KeyError] is raised before the first [print]). *)
Lemma reply_only_prints w d t st :
  d !! "type" = Some (JStr t) ->
  t = "friend_accept" \/ t = "friend_reject" ->
  same_data st (snd (process_incoming_message w (JObj d) st)).
Proof.
  intros Ht [-> | ->]; unfold process_incoming_message; run; rewrite Ht; cbn;
    destruct (d !! "from_user"); cbn; repeat split.
Qed.

(** C9. Processing an incoming [friend_accept] or [friend_reject] leaves
    the pending requests exactly as they were, so the entry made by
    [add_friend] stays; nor does it change any other field of the node or
    the data file.  All it does is print. *)
Theorem reply_leaves_pending_requests w d t st :
  d !! "type" = Some (JStr t) ->
  t = "friend_accept" \/ t = "friend_reject" ->
  let st' := snd (process_incoming_message w (JObj d) st) in
  friend_requests st' = friend_requests st /\
  friends st' = friends st /\
  conversations st' = conversations st /\
  current_chat st' = current_chat st /\
  data_file st' = data_file st /\
  username st' = username st /\ port st' = port st /\
  exists printed, trace st' = trace st ++ map Print printed.
Proof.
  intros Ht Hreply st'.
  destruct (reply_only_prints w d t st Ht Hreply) as (?&?&?&?&?&?&?).
  repeat (split; [assumption|]).
  subst st'. unfold process_incoming_message. run. rewrite Ht.
  destruct Hreply as [-> | ->]; cbn; destruct (d !! "from_user"); cbn.
  - eexists [_; _]. rewrite <- app_assoc. reflexivity.
  - exists []. cbn. rewrite app_nil_r. reflexivity.
  - eexists [_; _]. rewrite <- app_assoc. reflexivity.
  - exists []. cbn. rewrite app_nil_r. reflexivity.
Qed.

Lemma reply_leaves_pending_requests_witness :
  let st' := snd (process_incoming_message Sample.calm Sample.accept_from_bob
                    Sample.alice_waiting) in
  friend_requests Sample.alice_waiting !! "bob" = Some ("10.0.0.5", 55888) /\
  friend_requests st' = friend_requests Sample.alice_waiting /\
  friends st' = friends Sample.alice_waiting.
Proof.
  split; [vm_compute; reflexivity|].
  pose proof (reply_leaves_pending_requests Sample.calm
    {[ "type" := JStr "friend_accept"; "from_user" := JStr "bob" ]}
    "friend_accept" Sample.alice_waiting) as H.
  destruct H as (Hreq & Hfr & _).
  - vm_compute; reflexivity.
  - left; reflexivity.
  - split; [exact Hreq | exact Hfr].
Defined.

(** C1 (as amended). After an incoming [friend_accept] from [U] the friends
    map is what it was before: the requester is told that [U] accepted and
    no record is created for [U]. *)
Theorem friend_accept_keeps_friends w d U st :
  d !! "type" = Some (JStr "friend_accept") ->
  d !! "from_user" = Some U ->
  let '(r, st') := process_incoming_message w (JObj d) st in
  r = Ok tt /\
  friends st' = friends st /\
  trace st' = trace st ++ [Print (AcceptedYourRequest U); Print Prompt].
Proof.
  intros Ht Hu. unfold process_incoming_message. run. rewrite Ht. cbn.
  rewrite Hu. cbn. rewrite <- app_assoc. repeat split.
Qed.

Lemma friend_accept_keeps_friends_witness :
  let '(r, st') := process_incoming_message Sample.calm Sample.accept_from_bob
                     Sample.alice_waiting in
  r = Ok tt /\
  friends st' = friends Sample.alice_waiting /\
  trace st' = trace Sample.alice_waiting
                ++ [Print (AcceptedYourRequest (JStr "bob")); Print Prompt].
Proof.
  apply (friend_accept_keeps_friends Sample.calm
    {[ "type" := JStr "friend_accept"; "from_user" := JStr "bob" ]}
    (JStr "bob") Sample.alice_waiting); vm_compute; reflexivity.
Defined.

(** C1 as stated fails: alice has an outstanding request to bob, bob's
    [friend_accept] arrives, and alice still has no record for bob. *)
Lemma friend_accept_creates_no_record :
  let st' := snd (process_incoming_message Sample.calm Sample.accept_from_bob
                    Sample.alice_waiting) in
  friend_requests Sample.alice_waiting !! "bob" = Some ("10.0.0.5", 55888) /\
  ~ is_Some (friends st' !! KStr "bob").
Proof.
  split; [vm_compute; reflexivity|].
  intros [fr Hfr]. vm_compute in Hfr. discriminate Hfr.
Qed.

(** ** Incoming chat *)

Section IncomingChat.

Variables (w : World) (d : gmap string json) (P C : json) (key : pykey).
Hypothesis Htype : d !! "type" = Some (JStr "chat_message").
Hypothesis Hfrom : d !! "from_user" = Some P.
Hypothesis Hcontent : d !! "content" = Some C.
Hypothesis Hkey : to_key P = Some key.

Let received : Message :=
  {| msg_time := now w; msg_from := P; msg_content := C;
     msg_direction := incoming |}.

(** The whole effect of a chat message whose sender can key a dict. *)
Lemma chat_message_run st :
  exists st',
    process_incoming_message w (JObj d) st = (Ok tt, st') /\
    conversations st'
      = <[key := conversation_of st key ++ [received]]> (conversations st) /\
    friends st' = friends st /\
    friend_requests st' = friend_requests st /\
    current_chat st' = current_chat st /\
    data_file st' = written w (snapshot st') /\
    trace st' = trace st
      ++ (if chat_differs (current_chat st) P
          then [Print (IncomingChat (now w) P C)] else [])
      ++ [Print Prompt].
Proof.
  unfold process_incoming_message, conversation_of. run.
  rewrite Htype. cbn. rewrite Hfrom, Hcontent, Hkey. cbn.
  destruct (conversations st !! key) as [l|] eqn:Hl; cbn.
  - destruct (decide (is_Some (Some l))) as [_|Hn];
      [|exfalso; apply Hn; eexists; reflexivity].
    cbn. rewrite Hl. cbn.
    destruct (chat_differs (current_chat st) P); cbn;
      eexists; (split; [reflexivity|]); cbn; repeat split;
      rewrite <- ?app_assoc; reflexivity.
  - destruct (decide (is_Some (@None (list Message)))) as [[? Hs]|_];
      [discriminate Hs|].
    cbn. rewrite lookup_insert_eq. cbn. rewrite insert_insert_eq.
    destruct (chat_differs (current_chat st) P); cbn;
      eexists; (split; [reflexivity|]); cbn; repeat split;
      rewrite <- ?app_assoc; reflexivity.
Qed.

End IncomingChat.



(** C10. The inbound path asks for no friendship.  Whoever [from_user]
    is, friend or not, a [chat_message] from that name is stored: the
    conversation is created when there was none, the message is appended,
    the data file is written with the message in it, and the friends map
    stays as it was. *)
Theorem chat_message_needs_no_friend w d from_user content key st :
  d !! "type" = Some (JStr "chat_message") ->
  d !! "from_user" = Some from_user ->
  d !! "content" = Some content ->
  to_key from_user = Some key ->
  let received := {| msg_time := now w; msg_from := from_user;
                     msg_content := content; msg_direction := incoming |} in
  let stored := match conversations st !! key with
                | Some earlier => earlier ++ [received]
                | None => [received]
                end in
  let '(r, st') := process_incoming_message w (JObj d) st in
  r = Ok tt /\
  conversations st' !! key = Some stored /\
  conversations st' = <[key := stored]> (conversations st) /\
  friends st' = friends st /\
  friend_requests st' = friend_requests st /\
  (disk w = SaveOk ->
     data_file st'
       = Pickled {| p_friends := Some (friends st);
                    p_conversations :=
                      Some (<[key := stored]> (conversations st));
                    p_friend_requests := Some (friend_requests st) |}) /\
  (forall remains, disk w = SaveFails remains -> data_file st' = remains).
Proof.
  intros Ht Hf Hc Hk received stored.
  destruct (chat_message_run w d from_user content key Ht Hf Hc Hk st)
    as (st' & -> & Hconv & Hfriends & Hreqs & _ & Hfile & _).
  assert (Hstored : conversation_of st key ++ [received] = stored).
  { subst stored. unfold conversation_of.
    destruct (conversations st !! key); reflexivity. }
  change (conversations st'
          = <[key := conversation_of st key ++ [received]]> (conversations st))
    in Hconv.
  rewrite Hstored in Hconv. clearbody stored.
  unfold snapshot, written in Hfile. rewrite Hconv, Hfriends, Hreqs in Hfile.
  split; [reflexivity|]. split; [|split; [|split; [|split; [|split]]]].
  - rewrite Hconv. apply lookup_insert_eq.
  - exact Hconv.
  - exact Hfriends.
  - exact Hreqs.
  - intros Hok. rewrite Hfile, Hok. reflexivity.
  - intros remains Hfail. rewrite Hfile, Hfail. reflexivity.
Qed.

Lemma chat_message_needs_no_friend_witness :
  let received := {| msg_time := "12:00:00"; msg_from := JStr "bob";
                     msg_content := JStr "hi"; msg_direction := incoming |} in
  let st' := snd (process_incoming_message Sample.calm Sample.chat_from_bob
                    Sample.alice) in
  friends Sample.alice !! KStr "bob" = None /\
  conversations Sample.alice !! KStr "bob" = None /\
  conversations st' !! KStr "bob" = Some [received] /\
  data_file st'
    = Pickled {| p_friends := Some ∅;
                 p_conversations := Some {[ KStr "bob" := [received] ]};
                 p_friend_requests := Some ∅ |}.
Proof.
  split; [vm_compute; reflexivity|]. split; [vm_compute; reflexivity|].
  pose proof (chat_message_needs_no_friend Sample.calm
    {[ "type" := JStr "chat_message"; "from_user" := JStr "bob";
       "content" := JStr "hi" ]}
    (JStr "bob") (JStr "hi") (KStr "bob") Sample.alice) as H.
  cbv zeta in *. unfold Sample.chat_from_bob.
  destruct (process_incoming_message _ _ _) as [r st'].
  destruct H as (_ & Hconv & _ & _ & _ & Hfile & _);
    try (vm_compute; reflexivity).
  cbn [snd]. split; [exact Hconv|]. rewrite (Hfile eq_refl). reflexivity.
Defined.

(** ** An inbound friend request that the user accepts *)

(** C3. When a [friend_request] arrives and the answer typed at the
    prompt is [y] (in either case, blanks around it ignored), the friends
    map gets the entry [from_user -> {ip: from_ip, port: from_port,
    connected: True}], replacing any earlier one; the data file is written
    with that map; and one [friend_accept] carrying the local username is
    sent to [from_ip:from_port]. *)
Theorem accepted_request_adds_friend
  w d from_user from_ip from_port answer key st :
  d !! "type" = Some (JStr "friend_request") ->
  d !! "from_user" = Some from_user ->
  d !! "from_ip" = Some from_ip ->
  d !! "from_port" = Some from_port ->
  stdin w = Line answer ->
  strip (lower answer) = "y" ->
  to_key from_user = Some key ->
  let record := {| fr_ip := from_ip; fr_port := from_port;
                   fr_connected := true |} in
  let '(r, st') := process_incoming_message w (JObj d) st in
  r = Ok tt /\
  friends st' = <[key := record]> (friends st) /\
  conversations st' = conversations st /\
  friend_requests st' = friend_requests st /\
  (disk w = SaveOk ->
     data_file st'
       = Pickled {| p_friends := Some (<[key := record]> (friends st));
                    p_conversations := Some (conversations st);
                    p_friend_requests := Some (friend_requests st) |}) /\
  (forall remains, disk w = SaveFails remains -> data_file st' = remains) /\
  trace st' = trace st ++
    [Print (FriendRequestFrom from_user); Input "Accept? (y/n): ";
     Sent from_ip from_port (friend_accept (username st)) (connects w);
     Print (NowYourFriend from_user); Print Prompt].
Proof.
  intros Ht Hu Hip Hport Hin Hy Hk record.
  unfold process_incoming_message, get_method, subscript, hash, input, print,
    save_data, gets, modify, send_direct_message, bind, ret, raise.
  rewrite Ht. cbn. rewrite Hu, Hip, Hport, Hin. cbn.
  rewrite Hy, Hk. cbn.
  split; [reflexivity|]. split; [reflexivity|]. split; [reflexivity|].
  split; [reflexivity|]. unfold written. split; [|split].
  - intros ->. reflexivity.
  - intros remains ->. reflexivity.
  - rewrite <- !app_assoc. reflexivity.
Qed.

Lemma accepted_request_adds_friend_witness :
  let st' := snd (process_incoming_message Sample.calm Sample.request_from_bob
                    Sample.alice) in
  friends st' !! KStr "bob"
    = Some {| fr_ip := JStr "10.0.0.5"; fr_port := JInt 55888;
              fr_connected := true |} /\
  data_file st'
    = Pickled {| p_friends :=
                   Some {[ KStr "bob" :=
                             {| fr_ip := JStr "10.0.0.5";
                                fr_port := JInt 55888;
                                fr_connected := true |} ]};
                 p_conversations := Some ∅;
                 p_friend_requests := Some ∅ |} /\
  In (Sent (JStr "10.0.0.5") (JInt 55888) (friend_accept "alice") true)
     (trace st').
Proof.
  pose proof (accepted_request_adds_friend Sample.calm
    {[ "type" := JStr "friend_request"; "from_user" := JStr "bob";
       "from_ip" := JStr "10.0.0.5"; "from_port" := JInt 55888 ]}
    (JStr "bob") (JStr "10.0.0.5") (JInt 55888) " Y " (KStr "bob")
    Sample.alice) as H.
  cbv zeta in *. unfold Sample.request_from_bob.
  destruct (process_incoming_message _ _ _) as [r st'].
  destruct H as (_ & Hfriends & _ & _ & Hfile & _ & Htrace);
    try (vm_compute; reflexivity).
  cbn [snd]. split; [|split].
  - rewrite Hfriends. apply lookup_insert_eq.
  - rewrite (Hfile eq_refl). reflexivity.
  - rewrite Htrace. apply in_or_app. right. cbn. auto.
Defined.

(** ** Sending a friend request *)

(** C4 (as amended). [add_friend(username, ip, port)] makes one one-shot
    send of a [friend_request] carrying the local username, the detected
    local address and the local port.  When the send goes through, the
    pending requests map gets [username -> (ip, port)] and the data file is
    written with that map; when it does not, nothing is stored.  Either
    way no friend record is created, and the call returns [None]: whether
    the send went through shows only in the line printed. *)
Theorem add_friend_records_request w name peer_ip peer_port st :
  let request := friend_request (username st) (get_local_ip w) (port st) in
  let '(r, st') := add_friend w name peer_ip peer_port st in
  r = Ok PyNone /\
  friends st' = friends st /\
  conversations st' = conversations st /\
  (connects w = true ->
     friend_requests st'
       = <[name := (peer_ip, peer_port)]> (friend_requests st) /\
     (disk w = SaveOk ->
        data_file st'
          = Pickled {| p_friends := Some (friends st);
                       p_conversations := Some (conversations st);
                       p_friend_requests :=
                         Some (<[name := (peer_ip, peer_port)]>
                                 (friend_requests st)) |}) /\
     (forall remains, disk w = SaveFails remains -> data_file st' = remains) /\
     trace st' = trace st ++
       [Sent (JStr peer_ip) (JInt peer_port) request true;
        Print (RequestSent name)]) /\
  (connects w = false ->
     friend_requests st' = friend_requests st /\
     data_file st' = data_file st /\
     trace st' = trace st ++
       [Sent (JStr peer_ip) (JInt peer_port) request false;
        Print (CouldNotConnect name)]).
Proof.
  unfold add_friend. run.
  destruct (connects w); cbn; (split; [reflexivity|]);
    (split; [reflexivity|]); (split; [reflexivity|]);
    split; intros Hsend; try discriminate Hsend.
  - split; [reflexivity|]. unfold written. split; [|split].
    + intros ->. reflexivity.
    + intros remains ->. reflexivity.
    + rewrite <- app_assoc. reflexivity.
  - rewrite <- app_assoc. repeat split.
Qed.

Lemma add_friend_records_request_witness :
  let '(r, st') := add_friend Sample.calm "bob" "10.0.0.5" 55888 Sample.alice in
  r = Ok PyNone /\
  friend_requests st' !! "bob" = Some ("10.0.0.5", 55888) /\
  friends st' !! KStr "bob" = None /\
  data_file st'
    = Pickled {| p_friends := Some ∅;
                 p_conversations := Some ∅;
                 p_friend_requests :=
                   Some {[ "bob" := ("10.0.0.5", 55888) ]} |}.
Proof.
  pose proof (add_friend_records_request Sample.calm "bob" "10.0.0.5" 55888
                Sample.alice) as H.
  cbv zeta in H.
  destruct (add_friend _ _ _ _ _) as [r st'].
  destruct H as (Hr & Hfriends & _ & Hsent & _).
  destruct (Hsent eq_refl) as (Hreqs & Hfile & _).
  split; [exact Hr|]. split; [|split].
  - rewrite Hreqs. apply lookup_insert_eq.
  - rewrite Hfriends. vm_compute. reflexivity.
  - rewrite (Hfile eq_refl). reflexivity.
Defined.

(** C4 as stated fails: the send goes through, the request is recorded,
    and the call still returns [None], not [True]. *)
Lemma add_friend_returns_no_boolean :
  let '(r, st') := add_friend Sample.calm "bob" "10.0.0.5" 55888 Sample.alice in
  connects Sample.calm = true /\
  friend_requests st' !! "bob" = Some ("10.0.0.5", 55888) /\
  r <> Ok (PyBool (connects Sample.calm)).
Proof.
  vm_compute. repeat split. discriminate.
Qed.

(** ** Chatting *)

(** C5. [chat_with_friend] on a name that has no friend record stops at
    once: it prints that the name is not a friend, reads nothing, sends
    nothing, and leaves the conversations and every other field as they
    were. *)
Theorem chat_with_stranger_refused name ws st :
  friends st !! KStr name = None ->
  let '(r, st') := chat_with_friend name ws st in
  r = Returned PyNone /\
  trace st' = trace st ++ [Print (NotYourFriend name)] /\
  conversations st' = conversations st /\
  friends st' = friends st /\
  friend_requests st' = friend_requests st /\
  current_chat st' = current_chat st /\
  data_file st' = data_file st /\
  username st' = username st /\ port st' = port st.
Proof.
  intros Hnone. unfold chat_with_friend. rewrite Hnone. cbn. repeat split.
Qed.

Lemma chat_with_stranger_refused_witness :
  let '(r, st') := chat_with_friend "carol" [Sample.typing "hello" true]
                     Sample.alice_with_bob in
  r = Returned PyNone /\
  trace st' = trace Sample.alice_with_bob ++ [Print (NotYourFriend "carol")] /\
  conversations st' = conversations Sample.alice_with_bob.
Proof.
  pose proof (chat_with_stranger_refused "carol" [Sample.typing "hello" true]
                Sample.alice_with_bob) as H.
  destruct (chat_with_friend _ _ _) as [r st'].
  destruct H as (Hr & Htrace & Hconv & _); [vm_compute; reflexivity|].
  split; [exact Hr|]. split; [exact Htrace | exact Hconv].
Defined.

(** Printing the history of a conversation changes nothing but the
    trace, and does not raise. *)
Lemma for_each_print {A} (line : A -> notice) (l : list A) st :
  exists st',
    for_each l (fun x => print (line x)) st = (Ok tt, st') /\ same_data st st'.
Proof.
  revert st. induction l as [|x l IH]; intros st; cbn.
  - exists st. split; [reflexivity | apply same_data_refl].
  - unfold bind, print, modify at 1.
    destruct (IH (log (Print (line x)) st)) as (st' & Hrun & Hsame).
    exists st'. split; [exact Hrun|].
    eapply same_data_trans; [apply same_data_log | exact Hsame].
Qed.

Lemma show_conversation_prints name st :
  exists st', show_conversation name st = (Ok tt, st') /\ same_data st st'.
Proof.
  unfold show_conversation, bind, gets.
  destruct (conversations st !! KStr name) as [[|m l]|].
  - eexists. split; [reflexivity|].
    eapply same_data_trans; apply same_data_log.
  - destruct (for_each_print (fun msg => HistoryLine msg name)
                (drop (length (m :: l) - 20) (m :: l)) st)
      as (st1 & Hrun & Hsame).
    rewrite Hrun. eexists. split; [reflexivity|].
    eapply same_data_trans; [exact Hsame | apply same_data_log].
  - eexists. split; [reflexivity|].
    eapply same_data_trans; apply same_data_log.
Qed.

(** Opening a chat with a friend: the chat becomes the current one, the
    header and the history are printed, and the loop starts. *)
Lemma chat_with_friend_opens name fr ws st :
  friends st !! KStr name = Some fr ->
  exists st1,
    chat_with_friend name ws st = chat_loop name fr ws st1 /\
    same_data (set_current_chat (Some name) st) st1.
Proof.
  intros Hfr. unfold chat_with_friend. rewrite Hfr.
  unfold bind at 1. unfold modify at 1.
  unfold bind at 1. unfold print at 1, modify at 1.
  unfold bind at 1. unfold print at 1, modify at 1.
  destruct (show_conversation_prints name
              (log (Print Rule) (log (Print (ChatHeader name))
                 (set_current_chat (Some name) st))))
    as (st1 & Hrun & Hsame).
  rewrite Hrun. exists st1. split; [reflexivity|].
  eapply same_data_trans; [|exact Hsame].
  eapply same_data_trans; apply same_data_log.
Qed.

(** The loop has one way out, and it leaves [None]. *)
Lemma chat_loop_returns_none name fr ws : forall st v,
  fst (chat_loop name fr ws st) = Returned v -> v = PyNone.
Proof.
  induction ws as [|w ws IH]; intros st v; cbn.
  - destruct (decide (current_chat st = Some name)); cbn; congruence.
  - destruct (decide (current_chat st = Some name)); cbn; [|congruence].
    destruct (chat_turn w name fr st) as [[[]|[]] st']; cbn;
      try congruence; apply IH.
Qed.

Lemma chat_with_friend_returns_none name ws st v :
  fst (chat_with_friend name ws st) = Returned v -> v = PyNone.
Proof.
  destruct (friends st !! KStr name) as [fr|] eqn:Hfr.
  - destruct (chat_with_friend_opens name fr ws st Hfr) as (st1 & -> & _).
    apply chat_loop_returns_none.
  - unfold chat_with_friend. rewrite Hfr. cbn. congruence.
Qed.

(** What showing a conversation prints, and the node a chat starts from. *)
Lemma show_trace lines st : trace (show lines st) = trace st ++ map Print lines.
Proof.
  revert st. induction lines as [|n lines IH]; intros st; cbn.
  - by rewrite app_nil_r.
  - unfold show in IH. rewrite IH. cbn. by rewrite <- app_assoc.
Qed.

Lemma show_same lines st : same_data st (show lines st).
Proof.
  revert st. induction lines as [|n lines IH]; intros st; cbn.
  - apply same_data_refl.
  - eapply same_data_trans; [apply same_data_log | apply IH].
Qed.

Lemma for_each_print_run {A} (line : A -> notice) (l : list A) st :
  for_each l (fun x => print (line x)) st = (Ok tt, show (map line l) st).
Proof.
  revert st. induction l as [|x l IH]; intros st; cbn; [reflexivity|].
  unfold bind, print, modify at 1. apply IH.
Qed.

Lemma show_conversation_run name st :
  show_conversation name st
    = (Ok tt, log (Print Rule) (show (history_lines name st) st)).
Proof.
  unfold show_conversation, history_lines, bind, gets.
  destruct (conversations st !! KStr name) as [[|m l]|]; try reflexivity.
  rewrite for_each_print_run. reflexivity.
Qed.

Lemma chat_with_friend_enters name fr ws st :
  friends st !! KStr name = Some fr ->
  chat_with_friend name ws st = chat_loop name fr ws (opened name st).
Proof.
  intros Hfr. unfold chat_with_friend. rewrite Hfr.
  unfold bind at 1. unfold modify at 1.
  unfold bind at 1. unfold print at 1, modify at 1.
  unfold bind at 1. unfold print at 1, modify at 1.
  rewrite show_conversation_run. reflexivity.
Qed.

Lemma opened_same name st :
  same_data (set_current_chat (Some name) st) (opened name st).
Proof.
  unfold opened.
  eapply same_data_trans; [|apply same_data_log].
  eapply same_data_trans; [|apply show_same].
  eapply same_data_trans; apply same_data_log.
Qed.

Lemma opened_trace name st :
  trace (opened name st)
    = trace st ++ Print (ChatHeader name) :: Print Rule
        :: map Print (history_lines name st) ++ [Print Rule].
Proof.
  unfold opened. cbn. rewrite show_trace. cbn.
  rewrite <- !app_assoc. reflexivity.
Qed.

(** A line of chat whose send goes through. *)
Lemma chat_send_delivered w name friend_info message st :
  connects w = true ->
  let sent := {| msg_time := now w; msg_from := JStr (username st);
                 msg_content := JStr message; msg_direction := outgoing |} in
  exists st',
    chat_send w name friend_info message st = (Ok tt, st') /\
    conversations st'
      = <[KStr name := conversation_of st (KStr name) ++ [sent]]>
          (conversations st) /\
    friends st' = friends st /\
    current_chat st' = current_chat st /\
    data_file st' = written w (snapshot st') /\
    trace st' = trace st ++
      [Sent (fr_ip friend_info) (fr_port friend_info)
         (chat_message (username st) message) true;
       Print (YouSaid message)].
Proof.
  intros Hok sent. subst sent. unfold chat_send, conversation_of. run.
  rewrite Hok. cbn.
  destruct (conversations st !! KStr name) as [l|] eqn:Hl; cbn.
  - destruct (decide (is_Some (Some l))) as [_|Hn];
      [|exfalso; apply Hn; eexists; reflexivity].
    cbn. rewrite Hl. cbn. eexists. split; [reflexivity|]. cbn.
    repeat split. rewrite <- app_assoc. reflexivity.
  - destruct (decide (is_Some (@None (list Message)))) as [[? Hs]|_];
      [discriminate Hs|].
    cbn. rewrite lookup_insert_eq. cbn. rewrite insert_insert_eq.
    eexists. split; [reflexivity|]. cbn.
    repeat split. rewrite <- app_assoc. reflexivity.
Qed.

(** The requests kept are not touched by a line that is delivered. *)
Lemma chat_send_delivered_requests w name friend_info message st :
  connects w = true ->
  friend_requests (snd (chat_send w name friend_info message st))
    = friend_requests st.
Proof.
  intros Hok. unfold chat_send. run. rewrite Hok. cbn.
  destruct (conversations st !! KStr name) as [l|] eqn:Hl; cbn.
  - destruct (decide (is_Some (Some l))) as [_|Hn];
      [|exfalso; apply Hn; eexists; reflexivity].
    cbn. rewrite Hl. reflexivity.
  - destruct (decide (is_Some (@None (list Message)))) as [[? Hs]|_];
      [discriminate Hs|].
    cbn. rewrite lookup_insert_eq. reflexivity.
Qed.

(** A line of chat whose send fails. *)
Lemma chat_send_failed w name friend_info message current st :
  connects w = false ->
  friends st !! KStr name = Some current ->
  exists st',
    chat_send w name friend_info message st = (Ok tt, st') /\
    friends st'
      = <[KStr name := {| fr_ip := fr_ip current; fr_port := fr_port current;
                          fr_connected := false |}]> (friends st) /\
    conversations st' = conversations st /\
    current_chat st' = current_chat st /\
    data_file st' = data_file st /\
    trace st' = trace st ++
      [Sent (fr_ip friend_info) (fr_port friend_info)
         (chat_message (username st) message) false;
       Print MessageFailed].
Proof.
  intros Hfail Hcur. unfold chat_send. run. rewrite Hfail. cbn.
  rewrite Hcur. cbn. eexists. split; [reflexivity|]. cbn.
  repeat split. rewrite <- app_assoc. reflexivity.
Qed.

(** Nor by a line that is not delivered. *)
Lemma chat_send_frame_requests_failed w name friend_info message st :
  connects w = false ->
  friend_requests (snd (chat_send w name friend_info message st))
    = friend_requests st.
Proof.
  intros Hfail. unfold chat_send. run. rewrite Hfail. cbn.
  destruct (friends st !! KStr name); reflexivity.
Qed.

(** A typed line that is neither blank nor [exit] is sent. *)
Lemma chat_turn_sends w name friend_info line st :
  stdin w = Line line ->
  strip line <> "" ->
  lower (strip line) <> "exit" ->
  chat_turn w name friend_info st
    = match chat_send w name friend_info (strip line) (log (Input "") st) with
      | (Ok _, st') => (Ok Continue, st')
      | (Raise e, st') => (Raise e, st')
      end.
Proof.
  intros Hin Hne Hexit. unfold chat_turn, input, bind, modify, ret.
  rewrite Hin.
  apply String.eqb_neq in Hne. apply String.eqb_neq in Hexit.
  rewrite Hexit, Hne. cbn.
  destruct (chat_send w name friend_info (strip line) (log (Input "") st))
    as [[[]|e] st']; reflexivity.
Qed.

(** C6 (as amended). In a chat with a friend, a typed line that is neither
    blank nor [exit] is sent as one [chat_message] to the friend's address:
    after the header and the history, the call reads the line, makes that
    one send and prints one line, and nothing else.  When the send goes
    through, one outgoing message from the local user with that content is
    appended to the conversation, and the data file is written with the
    friends, the conversations so extended and the pending requests, unless
    the write fails, which leaves on disk what the failure leaves.  When
    the send fails, the friend's [connected] flag becomes false, in memory
    only, and the failure is printed.  In both cases the call goes on to
    wait for the next line; nothing is returned for the line, and whenever
    [chat_with_friend] does return, it returns [None]. *)
Theorem chat_line_outcome w name fr line st :
  friends st !! KStr name = Some fr ->
  stdin w = Line line ->
  strip line <> "" ->
  lower (strip line) <> "exit" ->
  let content := strip line in
  let sent := {| msg_time := now w; msg_from := JStr (username st);
                 msg_content := JStr content; msg_direction := outgoing |} in
  let extended :=
    <[KStr name := conversation_of st (KStr name) ++ [sent]]>
      (conversations st) in
  let '(r, st') := chat_with_friend name [w] st in
  r = AwaitingInput /\
  trace st' = trace st ++
    [Print (ChatHeader name); Print Rule] ++
    map Print (history_lines name st) ++
    [Print Rule; Input "";
     Sent (fr_ip fr) (fr_port fr) (chat_message (username st) content)
       (connects w);
     Print (if connects w then YouSaid content else MessageFailed)] /\
  friend_requests st' = friend_requests st /\
  (connects w = true ->
     conversations st' = extended /\
     friends st' = friends st /\
     (disk w = SaveOk ->
      data_file st'
        = Pickled {| p_friends := Some (friends st);
                     p_conversations := Some extended;
                     p_friend_requests := Some (friend_requests st) |}) /\
     (forall remains, disk w = SaveFails remains ->
        data_file st' = remains)) /\
  (connects w = false ->
     friends st'
       = <[KStr name := {| fr_ip := fr_ip fr; fr_port := fr_port fr;
                           fr_connected := false |}]> (friends st) /\
     conversations st' = conversations st /\
     data_file st' = data_file st) /\
  (forall more v,
     fst (chat_with_friend name (w :: more) st) = Returned v -> v = PyNone).
Proof.
  intros Hfr Hin Hne Hexit content sent extended.
  rewrite (chat_with_friend_enters name fr [w] st Hfr).
  pose proof (opened_same name st) as (Hu & Hp & Hf & Hq & Hc & Hcur & Hd).
  pose proof (opened_trace name st) as Ht.
  generalize dependent (opened name st). intros st1 Hu Hp Hf Hq Hc Hcur Hd Ht.
  cbn in Hu, Hp, Hf, Hq, Hc, Hcur, Hd.
  cbn [chat_loop].
  destruct (decide (current_chat st1 = Some name)) as [_|Hn];
    [|contradiction].
  rewrite (chat_turn_sends w name fr line st1 Hin Hne Hexit).
  destruct (connects w) eqn:Hsend.
  - pose proof (chat_send_delivered_requests w name fr (strip line)
                  (log (Input "") st1) Hsend) as Hq2.
    destruct (chat_send_delivered w name fr (strip line) (log (Input "") st1)
                Hsend) as (st2 & Hrun & Hc2 & Hf2 & Hcur2 & Hd2 & Ht2).
    rewrite Hrun in Hq2 |- *.
    cbn in Hc2, Hf2, Hcur2, Ht2, Hq2.
    destruct (decide (current_chat st2 = Some name)) as [_|Hn];
      [|congruence].
    assert (Hconv : conversations st2 = extended).
    { rewrite Hc2. unfold conversation_of. cbn. rewrite Hc, Hu. reflexivity. }
    split; [reflexivity|]. split; [|split; [|split; [|split]]].
    + rewrite Ht2, Ht, Hu, <- !app_assoc. cbn. rewrite <- !app_assoc.
      reflexivity.
    + congruence.
    + intros _. split; [exact Hconv|]. split; [congruence|].
      unfold written, snapshot in Hd2. rewrite Hconv in Hd2.
      replace (friends st2) with (friends st) in Hd2 by congruence.
      replace (friend_requests st2) with (friend_requests st) in Hd2
        by congruence.
      split.
      * intros Hdisk. rewrite Hdisk in Hd2. exact Hd2.
      * intros remains Hdisk. rewrite Hdisk in Hd2. exact Hd2.
    + discriminate.
    + intros more v. apply chat_with_friend_returns_none.
  - assert (Hcur1 : friends (log (Input "") st1) !! KStr name = Some fr)
      by (cbn; rewrite Hf; exact Hfr).
    pose proof (chat_send_frame_requests_failed w name fr (strip line)
                  (log (Input "") st1) Hsend) as Hq2.
    destruct (chat_send_failed w name fr (strip line) fr (log (Input "") st1)
                Hsend Hcur1) as (st2 & Hrun & Hf2 & Hc2 & Hcur2 & Hd2 & Ht2).
    rewrite Hrun in Hq2 |- *.
    cbn in Hf2, Hc2, Hcur2, Hd2, Ht2, Hq2.
    destruct (decide (current_chat st2 = Some name)) as [_|Hn];
      [|congruence].
    split; [reflexivity|]. split; [|split; [|split; [|split]]].
    + rewrite Ht2, Ht, Hu, <- !app_assoc. cbn. rewrite <- !app_assoc.
      reflexivity.
    + congruence.
    + discriminate.
    + intros _. split; [|split].
      * rewrite Hf2, Hf. reflexivity.
      * congruence.
      * congruence.
    + intros more v. apply chat_with_friend_returns_none.
Qed.

Lemma chat_line_outcome_witness :
  let '(r, st') := chat_with_friend "bob" [Sample.offline]
                     Sample.alice_with_bob in
  r = AwaitingInput /\
  trace st' = trace Sample.alice_with_bob ++
    [Print (ChatHeader "bob"); Print Rule; Print NoMessagesYet; Print Rule;
     Input "";
     Sent (JStr "10.0.0.5") (JInt 55888)
       (chat_message (username Sample.alice_with_bob) "hello") false;
     Print MessageFailed] /\
  friends st' !! KStr "bob"
    = Some {| fr_ip := JStr "10.0.0.5"; fr_port := JInt 55888;
              fr_connected := false |} /\
  conversations st' = conversations Sample.alice_with_bob /\
  data_file st' = data_file Sample.alice_with_bob.
Proof.
  pose proof (chat_line_outcome Sample.offline "bob"
    {| fr_ip := JStr "10.0.0.5"; fr_port := JInt 55888;
       fr_connected := true |}
    "hello" Sample.alice_with_bob) as H.
  cbv zeta in H.
  destruct (chat_with_friend _ _ _) as [r st'].
  destruct H as (Hr & Htrace & _ & _ & Hfailed & _);
    try (vm_compute; reflexivity); try (vm_compute; discriminate).
  destruct (Hfailed eq_refl) as (Hfriends & Hconv & Hfile).
  split; [exact Hr|]. split; [exact Htrace|].
  split; [|split; assumption].
  rewrite Hfriends. apply lookup_insert_eq.
Defined.

(** C6 as stated fails in its last clause: the send fails, the flag is
    cleared, the user then leaves the chat, and the call returns [None],
    not [False]. *)
Lemma failed_chat_returns_no_boolean :
  let '(r, st') := chat_with_friend "bob"
                     [Sample.offline; Sample.typing "exit" true]
                     Sample.alice_with_bob in
  connects Sample.offline = false /\
  fr_connected <$> friends st' !! KStr "bob" = Some false /\
  r = Returned PyNone /\
  r <> Returned (PyBool false).
Proof.
  vm_compute. repeat split. discriminate.
Qed.

(** ** Input that is not a protocol message *)

Lemma has_fields_cons d key keys :
  has_fields d (key :: keys)
    = match d !! key with Some _ => has_fields d keys | None => false end.
Proof.
  unfold has_fields. cbn. destruct (d !! key) as [v|].
  - rewrite bool_decide_eq_true_2 by (eexists; reflexivity). reflexivity.
  - rewrite bool_decide_eq_false_2 by (intros [? Hs]; discriminate Hs).
    reflexivity.
Qed.

(** A decoded value that is not one of the four messages with its fields
    is left without any effect: the router raises, or falls through,
    before its first [print] and before its first store. *)
Lemma not_protocol_no_effect w v st :
  protocol_message v = false ->
  snd (process_incoming_message w v st) = st.
Proof.
  intros Hno. destruct v as [| | | | |d]; try reflexivity.
  unfold process_incoming_message, get_method, bind, ret.
  unfold protocol_message in Hno.
  destruct (d !! "type") as [[| | |t| |]|]; try reflexivity.
  cbn [is_str].
  destruct (String.eqb t "friend_request").
  { rewrite !has_fields_cons in Hno. unfold subscript, bind, ret, raise.
    destruct (d !! "from_user"); [|reflexivity].
    destruct (d !! "from_ip"); [|reflexivity].
    destruct (d !! "from_port"); [discriminate Hno | reflexivity]. }
  destruct (String.eqb t "friend_accept").
  { rewrite !has_fields_cons in Hno. unfold subscript, bind, ret, raise.
    destruct (d !! "from_user"); [discriminate Hno | reflexivity]. }
  destruct (String.eqb t "friend_reject").
  { rewrite !has_fields_cons in Hno. unfold subscript, bind, ret, raise.
    destruct (d !! "from_user"); [discriminate Hno | reflexivity]. }
  destruct (String.eqb t "chat_message"); [|reflexivity].
  rewrite !has_fields_cons in Hno. unfold subscript, bind, ret, raise.
  destruct (d !! "from_user"); [|reflexivity].
  destruct (d !! "content"); [discriminate Hno | reflexivity].
Qed.

(** C7. When the read of an inbound connection fails or is empty, or the
    bytes read are not one protocol message, [handle_connection] closes
    the socket and does nothing else: friends, conversations, pending
    requests and the data file are as before, nothing is sent, nothing is
    printed. *)
Theorem undecodable_is_dropped json_loads w rx st :
  received_message json_loads rx = None ->
  handle_connection json_loads w rx st = log Closed st.
Proof.
  unfold received_message, handle_connection, read_and_dispatch.
  intros Hnone. f_equal.
  destruct rx as [text|]; [|reflexivity].
  unfold bind at 1. unfold ret at 1.
  destruct (String.eqb text ""); [reflexivity|]. cbn [negb].
  destruct (json_loads text) as [v|]; [|reflexivity].
  unfold bind, ret.
  destruct (protocol_message v) eqn:Hv; [discriminate Hnone|].
  apply (not_protocol_no_effect w v st Hv).
Qed.

Lemma undecodable_is_dropped_witness :
  handle_connection Sample.loads Sample.calm (Some "") Sample.alice_with_bob
    = log Closed Sample.alice_with_bob /\
  handle_connection Sample.loads Sample.calm (Some "p2p?")
    Sample.alice_with_bob = log Closed Sample.alice_with_bob /\
  handle_connection Sample.loads Sample.calm (Some "[1, 2]")
    Sample.alice_with_bob = log Closed Sample.alice_with_bob.
Proof.
  split; [|split];
    apply (undecodable_is_dropped Sample.loads); vm_compute; reflexivity.
Defined.

(** ** The snapshot on disk *)

(** C8. After a save that goes through, a load of the file just written
    yields the same three maps: friends, conversations and pending
    requests. *)
Theorem save_then_load w st n :
  disk w = SaveOk ->
  data_file n = data_file (snd (save_data w st)) ->
  let n' := snd (load_data n) in
  friends n' = friends st /\
  conversations n' = conversations st /\
  friend_requests n' = friend_requests st.
Proof.
  intros Hok Hfile. unfold load_data, save_data, modify, gets, bind in *.
  cbn in Hfile. rewrite (written_ok _ _ Hok) in Hfile.
  cbn. rewrite Hfile. cbn. repeat split.
Qed.

Lemma save_then_load_witness :
  let saved := data_file (snd (save_data Sample.calm Sample.alice_with_bob)) in
  let restarted := init "alice" saved in
  friends restarted = friends Sample.alice_with_bob /\
  conversations restarted = conversations Sample.alice_with_bob /\
  friend_requests restarted = friend_requests Sample.alice_with_bob.
Proof.
  intros saved restarted.
  apply (save_then_load Sample.calm Sample.alice_with_bob
    {| username := "alice"; port := 55888; friends := ∅;
       friend_requests := ∅; conversations := ∅; current_chat := None;
       data_file := saved; trace := [] |}); reflexivity.
Defined.

(** * Further properties *)

(** ** What the router can do to a node *)

Lemma router_frame_refl w st : router_frame w st st.
Proof.
  unfold router_frame. repeat split; auto. exists []. by rewrite app_nil_r.
Qed.

Lemma router_frame_prints w st st' :
  same_data st st' -> (exists out, trace st' = trace st ++ out) ->
  router_frame w st st'.
Proof.
  intros (?&?&?&?&?&?&?) Hout. unfold router_frame. repeat split; auto.
Qed.

Lemma router_step w v st :
  router_frame w st (snd (process_incoming_message w v st)).
Proof.
  destruct v as [| | | | |d]; try apply router_frame_refl.
  unfold process_incoming_message, get_method, bind at 1, ret at 1.
  destruct (d !! "type") as [[| | |t| |]|] eqn:Ht; try apply router_frame_refl.
  cbn [is_str].
  destruct (String.eqb t "friend_request") eqn:E1.
  { unfold subscript, hash, input, print, save_data, gets, modify,
      send_direct_message, bind, ret, raise.
    destruct (d !! "from_user") as [u|]; [|apply router_frame_refl].
    destruct (d !! "from_ip") as [ip|]; [|apply router_frame_refl].
    destruct (d !! "from_port") as [p|]; [|apply router_frame_refl].
    destruct (stdin w) as [answer| |]; cbn.
    - destruct (String.eqb (strip (lower answer)) "y").
      + destruct (to_key u) as [k|]; cbn.
        * unfold router_frame; cbn. repeat split; eauto.
          rewrite <- !app_assoc. eauto.
        * apply router_frame_prints; [repeat split|].
          cbn. rewrite <- !app_assoc. eauto.
      + cbn. apply router_frame_prints; [repeat split|].
        cbn. rewrite <- !app_assoc. eauto.
    - apply router_frame_prints; [repeat split|].
      cbn. rewrite <- !app_assoc. eauto.
    - apply router_frame_prints; [repeat split|].
      cbn. rewrite <- !app_assoc. eauto. }
  destruct (String.eqb t "friend_accept") eqn:E2.
  { unfold subscript, print, modify, bind, ret, raise.
    destruct (d !! "from_user") as [u|]; [|apply router_frame_refl].
    cbn. apply router_frame_prints; [repeat split|].
    cbn. rewrite <- !app_assoc. eauto. }
  destruct (String.eqb t "friend_reject") eqn:E3.
  { unfold subscript, print, modify, bind, ret, raise.
    destruct (d !! "from_user") as [u|]; [|apply router_frame_refl].
    cbn. apply router_frame_prints; [repeat split|].
    cbn. rewrite <- !app_assoc. eauto. }
  destruct (String.eqb t "chat_message") eqn:E4; [|apply router_frame_refl].
  apply String.eqb_eq in E4. subst t.
  destruct (d !! "from_user") as [u|] eqn:Hu.
  2:{ unfold subscript, bind, raise. rewrite Hu. apply router_frame_refl. }
  destruct (d !! "content") as [c|] eqn:Hc.
  2:{ unfold subscript, bind, raise, ret. rewrite Hu, Hc.
      apply router_frame_refl. }
  destruct (to_key u) as [k|] eqn:Hk.
  2:{ unfold subscript, hash, bind, raise, ret. rewrite Hu, Hc, Hk.
      apply router_frame_refl. }
  unfold conversation_of, append_message, subscript, hash, print, save_data,
    gets, modify, bind, ret, raise.
  rewrite Hu, Hc, Hk. cbn.
  destruct (conversations st !! k) as [l|] eqn:Hl; cbn.
  - destruct (decide (is_Some (Some l))) as [_|Hn];
      [|exfalso; apply Hn; eexists; reflexivity].
    cbn. rewrite Hl. cbn.
    destruct (chat_differs (current_chat st) u); cbn;
      unfold router_frame, conversation_of; cbn; rewrite ?Hl;
      repeat split; eauto; rewrite <- ?app_assoc; eauto;
      right; exists k; eexists; rewrite Hl; reflexivity.
  - destruct (decide (is_Some (@None (list Message)))) as [[? Hs]|_];
      [discriminate Hs|].
    cbn. rewrite lookup_insert_eq. cbn. rewrite insert_insert_eq.
    destruct (chat_differs (current_chat st) u); cbn;
      unfold router_frame, conversation_of; cbn; rewrite ?Hl;
      repeat split; eauto; rewrite <- ?app_assoc; eauto;
      right; exists k; eexists; rewrite Hl; reflexivity.
Qed.

(** The same holds for a whole connection, whatever was read from it. *)
Lemma connection_step json_loads w rx st :
  router_frame w st (handle_connection json_loads w rx st).
Proof.
  assert (Hclose : forall st', router_frame w st st' ->
                               router_frame w st (log Closed st')).
  { intros st' (?&?&?&?&?&?&?&(out & Hout)).
    unfold router_frame. cbn. repeat split; auto.
    exists (out ++ [Closed]). rewrite Hout, app_assoc. reflexivity. }
  unfold handle_connection, read_and_dispatch. apply Hclose.
  destruct rx as [text|]; [|apply router_frame_refl].
  unfold bind at 1. unfold ret at 1.
  destruct (String.eqb text ""); [apply router_frame_refl|]. cbn [negb].
  destruct (json_loads text) as [v|]; [|apply router_frame_refl].
  unfold bind at 1. unfold ret at 1. apply router_step.
Qed.

(** X1. Whatever arrives on a connection, [handle_connection] leaves the
    pending requests, the current chat, the username and the port as they
    were. *)
Theorem inbound_keeps_pending json_loads w rx st :
  let st' := handle_connection json_loads w rx st in
  friend_requests st' = friend_requests st /\
  current_chat st' = current_chat st /\
  username st' = username st /\
  port st' = port st.
Proof.
  destruct (connection_step json_loads w rx st) as (?&?&?&?&_).
  cbv zeta. auto.
Qed.



(** X3. Write-through: when the data file holds what the node holds and
    writes go through, it still does after any connection has been
    handled, so a restart from the file gives back the three maps that
    were in memory. *)
Theorem inbound_write_through json_loads w rx st name :
  disk w = SaveOk ->
  in_sync st ->
  let st' := handle_connection json_loads w rx st in
  let restarted := init name (data_file st') in
  in_sync st' /\
  friends restarted = friends st' /\
  conversations restarted = conversations st' /\
  friend_requests restarted = friend_requests st'.
Proof.
  intros Hok Hsync st' restarted.
  assert (Hs : in_sync st').
  { subst st'.
    destruct (connection_step json_loads w rx st)
      as (Hq &_&_&_&_&_& Hfile &_).
    unfold in_sync in *.
    destruct Hfile as [(Hf & Hc & Hd) | Hd].
    - rewrite Hd, Hsync. unfold snapshot. rewrite Hf, Hc, Hq. reflexivity.
    - rewrite Hd. apply written_ok, Hok. }
  clearbody st'. split; [exact Hs|].
  subst restarted. unfold init, load_data, bind, gets, modify. cbn.
  unfold in_sync in Hs. rewrite Hs. cbn. repeat split.
Qed.

Lemma inbound_write_through_witness :
  let st' := handle_connection Scene.loads Sample.calm (Some Scene.chat_text)
               Sample.alice_with_bob in
  length (conversation_of st' (KStr "bob")) = 1%nat /\
  in_sync st' /\
  conversations (init "alice" (data_file st')) = conversations st'.
Proof.
  destruct (inbound_write_through Scene.loads Sample.calm
              (Some Scene.chat_text) Sample.alice_with_bob "alice")
    as (Hs & _ & Hc & _).
  - reflexivity.
  - vm_compute. reflexivity.
  - split; [vm_compute; reflexivity|]. split; [exact Hs | exact Hc].
Defined.

(** ** Friend requests that are not accepted *)

(** X4. A friend request answered with anything but [y] stores nothing:
    friends, conversations, pending requests and the data file stay as
    they were, and one [friend_reject] carrying the local username is sent
    to the address given in the request.  The sender's name is not
    hashed on this path, so any JSON value will do for it. *)
Theorem refused_request_changes_nothing
  w d from_user from_ip from_port answer st :
  d !! "type" = Some (JStr "friend_request") ->
  d !! "from_user" = Some from_user ->
  d !! "from_ip" = Some from_ip ->
  d !! "from_port" = Some from_port ->
  stdin w = Line answer ->
  strip (lower answer) <> "y" ->
  let '(r, st') := process_incoming_message w (JObj d) st in
  r = Ok tt /\
  same_data st st' /\
  trace st' = trace st ++
    [Print (FriendRequestFrom from_user); Input "Accept? (y/n): ";
     Sent from_ip from_port (friend_reject (username st)) (connects w);
     Print (RejectedUser from_user); Print Prompt].
Proof.
  intros Ht Hu Hip Hport Hin Hy.
  unfold process_incoming_message, get_method, subscript, hash, input, print,
    save_data, gets, modify, send_direct_message, bind, ret, raise.
  rewrite Ht. cbn. rewrite Hu, Hip, Hport, Hin. cbn.
  apply String.eqb_neq in Hy. rewrite Hy. cbn.
  split; [reflexivity|]. split; [repeat split|].
  rewrite <- !app_assoc. reflexivity.
Qed.

Lemma refused_request_changes_nothing_witness :
  let st' := snd (process_incoming_message Scene.refusing
                    Sample.request_from_bob Sample.alice) in
  friends st' !! KStr "bob" = None /\
  In (Sent (JStr "10.0.0.5") (JInt 55888) (friend_reject "alice") true)
     (trace st').
Proof.
  pose proof (refused_request_changes_nothing Scene.refusing
    {[ "type" := JStr "friend_request"; "from_user" := JStr "bob";
       "from_ip" := JStr "10.0.0.5"; "from_port" := JInt 55888 ]}
    (JStr "bob") (JStr "10.0.0.5") (JInt 55888) "n" Sample.alice) as H.
  unfold Sample.request_from_bob.
  destruct (process_incoming_message _ _ _) as [r st'].
  destruct H as (_ & Hsame & Htrace);
    try (vm_compute; reflexivity); try (vm_compute; discriminate).
  destruct Hsame as (_ & _ & Hf & _).
  cbn [snd]. split.
  - rewrite Hf. vm_compute. reflexivity.
  - rewrite Htrace. apply in_or_app. right. cbn. auto.
Defined.

(** X5. A friend request whose [from_user] cannot key a dict (a list or a
    dict) and that the user accepts is announced and asked about, but
    then nothing is stored and no reply at all goes back: the store
    raises, and the handler drops the error. *)
Theorem unhashable_request_gets_no_reply
  json_loads w text d from_user from_ip from_port answer st :
  text <> "" ->
  json_loads text = Some (JObj d) ->
  d !! "type" = Some (JStr "friend_request") ->
  d !! "from_user" = Some from_user ->
  d !! "from_ip" = Some from_ip ->
  d !! "from_port" = Some from_port ->
  stdin w = Line answer ->
  strip (lower answer) = "y" ->
  to_key from_user = None ->
  handle_connection json_loads w (Some text) st
    = log Closed (log (Input "Accept? (y/n): ")
        (log (Print (FriendRequestFrom from_user)) st)).
Proof.
  intros Htext Hloads Ht Hu Hip Hport Hin Hy Hk.
  unfold handle_connection, read_and_dispatch. f_equal.
  unfold bind at 1. unfold ret at 1.
  apply String.eqb_neq in Htext. rewrite Htext. cbn [negb].
  rewrite Hloads. unfold bind at 1. unfold ret at 1.
  unfold process_incoming_message, get_method, subscript, hash, input, print,
    save_data, gets, modify, send_direct_message, bind, ret, raise.
  rewrite Ht. cbn. rewrite Hu, Hip, Hport, Hin. cbn.
  rewrite Hy, Hk. reflexivity.
Qed.

Lemma unhashable_request_gets_no_reply_witness :
  handle_connection Scene.loads Sample.calm (Some Scene.request_list_text)
    Sample.alice
  = log Closed (log (Input "Accept? (y/n): ")
      (log (Print (FriendRequestFrom (JArr [JStr "bob"]))) Sample.alice)).
Proof.
  apply (unhashable_request_gets_no_reply Scene.loads Sample.calm
    Scene.request_list_text
    {[ "type" := JStr "friend_request"; "from_user" := JArr [JStr "bob"];
       "from_ip" := JStr "10.0.0.5"; "from_port" := JInt 55888 ]}
    (JArr [JStr "bob"]) (JStr "10.0.0.5") (JInt 55888) " Y " Sample.alice);
    try (vm_compute; reflexivity); vm_compute; discriminate.
Defined.

(** X6. When the prompt for a friend request cannot be answered (end of
    input, or an interrupt), the request is announced and then dropped:
    nothing is stored and neither an accept nor a reject is sent. *)
Theorem unanswered_request_gets_no_reply
  w d from_user from_ip from_port st :
  d !! "type" = Some (JStr "friend_request") ->
  d !! "from_user" = Some from_user ->
  d !! "from_ip" = Some from_ip ->
  d !! "from_port" = Some from_port ->
  stdin w = Eof \/ stdin w = Interrupt ->
  let '(r, st') := process_incoming_message w (JObj d) st in
  (r = Raise EOFError \/ r = Raise KeyboardInterrupt) /\
  st' = log (Input "Accept? (y/n): ")
          (log (Print (FriendRequestFrom from_user)) st).
Proof.
  intros Ht Hu Hip Hport Hin.
  unfold process_incoming_message, get_method, subscript, hash, input, print,
    save_data, gets, modify, send_direct_message, bind, ret, raise.
  rewrite Ht. cbn. rewrite Hu, Hip, Hport.
  destruct Hin as [-> | ->]; cbn; auto.
Qed.

Lemma unanswered_request_gets_no_reply_witness :
  snd (process_incoming_message Scene.at_eof Sample.request_from_bob
         Sample.alice)
    = log (Input "Accept? (y/n): ")
        (log (Print (FriendRequestFrom (JStr "bob"))) Sample.alice).
Proof.
  pose proof (unanswered_request_gets_no_reply Scene.at_eof
    {[ "type" := JStr "friend_request"; "from_user" := JStr "bob";
       "from_ip" := JStr "10.0.0.5"; "from_port" := JInt 55888 ]}
    (JStr "bob") (JStr "10.0.0.5") (JInt 55888) Sample.alice) as H.
  unfold Sample.request_from_bob.
  destruct (process_incoming_message _ _ _) as [r st'].
  destruct H as (_ & Hst); try (vm_compute; reflexivity).
  - left. reflexivity.
  - exact Hst.
Defined.

(** ** Incoming chat: senders that cannot be stored, and what is shown *)

(** X7. A chat message whose [from_user] cannot key a dict is dropped
    whole: the lookup raises before anything is stored or printed, so the
    node is left exactly as it was. *)
Theorem unhashable_chat_is_dropped w d from_user content st :
  d !! "type" = Some (JStr "chat_message") ->
  d !! "from_user" = Some from_user ->
  d !! "content" = Some content ->
  to_key from_user = None ->
  process_incoming_message w (JObj d) st = (Raise TypeError, st).
Proof.
  intros Ht Hu Hc Hk.
  unfold process_incoming_message, get_method, subscript, hash, bind, ret,
    raise.
  rewrite Ht. cbn. rewrite Hu, Hc, Hk. reflexivity.
Qed.

Lemma unhashable_chat_is_dropped_witness :
  process_incoming_message Sample.calm Scene.chat_from_list Sample.alice
    = (Raise TypeError, Sample.alice).
Proof.
  apply (unhashable_chat_is_dropped Sample.calm
    {[ "type" := JStr "chat_message"; "from_user" := JArr [JStr "bob"];
       "content" := JStr "hi" ]}
    (JArr [JStr "bob"]) (JStr "hi") Sample.alice); vm_compute; reflexivity.
Defined.

(** X8. What an incoming chat message shows on the screen depends on the
    chat that is open.  From the partner of the open chat it shows
    nothing of the message, only the prompt; from anyone else it shows
    the time, the sender and the content, then the prompt.  Either way
    the message is stored. *)
Theorem incoming_chat_display w d P content st :
  d !! "type" = Some (JStr "chat_message") ->
  d !! "from_user" = Some (JStr P) ->
  d !! "content" = Some content ->
  let '(r, st') := process_incoming_message w (JObj d) st in
  r = Ok tt /\
  (current_chat st = Some P ->
     trace st' = trace st ++ [Print Prompt]) /\
  (current_chat st <> Some P ->
     trace st' = trace st ++
       [Print (IncomingChat (now w) (JStr P) content); Print Prompt]) /\
  length (conversation_of st' (KStr P))
    = S (length (conversation_of st (KStr P))).
Proof.
  intros Ht Hu Hc.
  destruct (chat_message_run w d (JStr P) content (KStr P) Ht Hu Hc eq_refl st)
    as (st' & -> & Hconv & _ & _ & _ & _ & Htr).
  split; [reflexivity|]. split; [|split].
  - intros Hcur. rewrite Htr, Hcur. cbn. rewrite String.eqb_refl. reflexivity.
  - intros Hcur. rewrite Htr.
    destruct (current_chat st) as [c|]; cbn; [|reflexivity].
    destruct (String.eqb c P) eqn:E; [|reflexivity].
    apply String.eqb_eq in E. congruence.
  - unfold conversation_of at 1. rewrite Hconv, lookup_insert_eq. cbn.
    rewrite length_app. cbn. lia.
Qed.

Lemma incoming_chat_display_witness :
  let st' := snd (process_incoming_message Sample.calm Sample.chat_from_bob
                    Scene.alice_chatting) in
  current_chat Scene.alice_chatting = Some "bob" /\
  trace st' = trace Scene.alice_chatting ++ [Print Prompt].
Proof.
  split; [vm_compute; reflexivity|].
  pose proof (incoming_chat_display Sample.calm
    {[ "type" := JStr "chat_message"; "from_user" := JStr "bob";
       "content" := JStr "hi" ]}
    "bob" (JStr "hi") Scene.alice_chatting) as H.
  unfold Sample.chat_from_bob.
  destruct (process_incoming_message _ _ _) as [r st'].
  destruct H as (_ & Hopen & _); try (vm_compute; reflexivity).
  apply Hopen. vm_compute. reflexivity.
Defined.

(** ** Showing a conversation *)

(** X9. [show_conversation] changes nothing in the node.  It prints the
    stored messages in order when there are at most 20 of them, the last
    20 when there are more, and a line saying there are none when the
    conversation is empty or absent; then a rule. *)
Theorem show_conversation_last_twenty name st :
  let stored := conversation_of st (KStr name) in
  let shown := drop (length stored - 20) stored in
  let '(r, st') := show_conversation name st in
  r = Ok tt /\
  same_data st st' /\
  trace st' = trace st ++
    match stored with
    | [] => [Print NoMessagesYet]
    | _ => map (fun m => Print (HistoryLine m name)) shown
    end ++ [Print Rule] /\
  length shown = Nat.min (length stored) 20 /\
  exists older, stored = older ++ shown.
Proof.
  intros stored shown. rewrite show_conversation_run.
  split; [reflexivity|]. split; [|split; [|split]].
  - eapply same_data_trans; [apply show_same | apply same_data_log].
  - cbn. rewrite show_trace, <- app_assoc. f_equal. f_equal.
    subst shown stored. unfold history_lines, conversation_of.
    destruct (conversations st !! KStr name) as [[|m l]|]; try reflexivity.
    cbn [default]. rewrite map_map. reflexivity.
  - subst shown. rewrite length_drop. lia.
  - exists (take (length stored - 20) stored). subst shown.
    symmetry. apply take_drop.
Qed.

(** ** A chat session *)

Lemma faded_refl fr : faded fr fr.
Proof. repeat split; auto. Qed.

Lemma faded_trans a b c : faded a b -> faded b c -> faded a c.
Proof.
  intros (?&?&?) (?&?&?). repeat split; try congruence. auto.
Qed.

Lemma chat_frame_refl name st : chat_frame name st st.
Proof.
  unfold chat_frame. repeat split; auto.
  - intros key. destruct (friends st !! key); constructor. apply faded_refl.
  - exists []. split; [by rewrite app_nil_r | constructor].
  - exists []. by rewrite app_nil_r.
Qed.

Lemma chat_frame_trans name st1 st2 st3 :
  chat_frame name st1 st2 -> chat_frame name st2 st3 -> chat_frame name st1 st3.
Proof.
  intros (Hq1 & Hu1 & Hp1 & Hf1 & Ho1 & (m1 & Hc1 & Hs1) & (o1 & Ht1))
         (Hq2 & Hu2 & Hp2 & Hf2 & Ho2 & (m2 & Hc2 & Hs2) & (o2 & Ht2)).
  unfold chat_frame. repeat split; try congruence.
  - intros key. specialize (Hf1 key). specialize (Hf2 key).
    destruct Hf1 as [a b Hab|]; inversion Hf2; subst; constructor.
    eapply faded_trans; eassumption.
  - intros key Hne. rewrite Ho2, Ho1 by exact Hne. reflexivity.
  - exists (m1 ++ m2). split.
    + rewrite Hc2, Hc1, app_assoc. reflexivity.
    + apply Forall_app. split; [exact Hs1|]. rewrite <- Hu1. exact Hs2.
  - exists (o1 ++ o2). rewrite Ht2, Ht1, app_assoc. reflexivity.
Qed.

(** A step that leaves the stored data alone and adds to the trace. *)
Lemma chat_frame_prints name st st' :
  same_data st st' \/ same_data (set_current_chat None st) st' \/
    same_data (set_current_chat (Some name) st) st' ->
  (exists out, trace st' = trace st ++ out) ->
  chat_frame name st st'.
Proof.
  intros Hsame Hout.
  assert (H : username st' = username st /\ port st' = port st /\
              friends st' = friends st /\
              friend_requests st' = friend_requests st /\
              conversations st' = conversations st).
  { destruct Hsame as [H | [H | H]]; destruct H as (?&?&?&?&?&?&?);
      cbn in *; auto. }
  destruct H as (Hu & Hp & Hf & Hq & Hc).
  unfold chat_frame, conversation_of. rewrite Hf, Hc.
  repeat split; auto.
  - intros key. destruct (friends st !! key); constructor. apply faded_refl.
  - exists []. split; [by rewrite app_nil_r | constructor].
Qed.

Lemma chat_send_frame w name fr message st :
  chat_frame name st (snd (chat_send w name fr message st)).
Proof.
  destruct (connects w) eqn:Hsend.
  - destruct (chat_send_delivered w name fr message st Hsend)
      as (st' & Hrun & Hc & Hf & Hcur & Hd & Ht).
    rewrite Hrun. cbn [snd].
    assert (Hrest : friend_requests st' = friend_requests st /\
                    username st' = username st /\ port st' = port st).
    { revert Hrun. unfold chat_send. run. rewrite Hsend. cbn.
      destruct (decide (is_Some (conversations st !! KStr name)));
        cbn; [destruct (conversations st !! KStr name); cbn
             | rewrite lookup_insert_eq; cbn];
        intros Hrun; inversion Hrun; subst; cbn; auto. }
    destruct Hrest as (Hq & Hu & Hp).
    unfold chat_frame. repeat split; auto.
    + intros key. rewrite Hf.
      destruct (friends st !! key); constructor. apply faded_refl.
    + intros key Hne. rewrite Hc. apply lookup_insert_ne. congruence.
    + eexists [_]. split.
      * unfold conversation_of at 1. rewrite Hc, lookup_insert_eq.
        reflexivity.
      * repeat constructor.
    + eauto.
  - unfold chat_send. run. rewrite Hsend. cbn.
    destruct (friends st !! KStr name) as [cur|] eqn:Hcur; cbn.
    + unfold chat_frame, conversation_of. cbn. repeat split; auto.
      * intros key. destruct (decide (key = KStr name)) as [->|Hne].
        -- rewrite lookup_insert_eq, Hcur. constructor.
           repeat split; auto. cbn. discriminate.
        -- rewrite lookup_insert_ne by congruence.
           destruct (friends st !! key); constructor. apply faded_refl.
      * exists []. split; [by rewrite app_nil_r | constructor].
      * rewrite <- app_assoc. eauto.
    + apply chat_frame_prints; [left; repeat split|].
      cbn. rewrite <- app_assoc. eauto.
Qed.

Lemma chat_turn_frame w name fr st :
  chat_frame name st (snd (chat_turn w name fr st)).
Proof.
  unfold chat_turn, input. unfold bind at 1. unfold bind at 1.
  unfold modify at 1. destruct (stdin w) as [line| |].
  - unfold ret at 1.
    destruct (String.eqb (lower (strip line)) "exit").
    + cbn. apply chat_frame_prints; [right; left; repeat split|].
      cbn. rewrite <- app_assoc. eauto.
    + assert (Hin : chat_frame name st (log (Input "") st)).
      { apply chat_frame_prints; [left; repeat split|]. cbn. eauto. }
      destruct (String.eqb (strip line) ""); cbn [negb].
      * cbn. exact Hin.
      * unfold bind.
        pose proof (chat_send_frame w name fr (strip line)
                      (log (Input "") st)) as Hsend.
        destruct (chat_send w name fr (strip line) (log (Input "") st))
          as [[[]|e] st']; cbn in *;
          eapply chat_frame_trans; eassumption.
  - cbn. apply chat_frame_prints; [left; repeat split|]. cbn. eauto.
  - cbn. apply chat_frame_prints; [left; repeat split|]. cbn. eauto.
Qed.

Lemma chat_loop_frame name fr ws : forall st,
  chat_frame name st (snd (chat_loop name fr ws st)).
Proof.
  induction ws as [|w ws IH]; intros st; cbn.
  - destruct (decide (current_chat st = Some name)); apply chat_frame_refl.
  - destruct (decide (current_chat st = Some name)); [|apply chat_frame_refl].
    pose proof (chat_turn_frame w name fr st) as Hturn.
    destruct (chat_turn w name fr st) as [[[]|err] st']; cbn [snd] in *.
    + eapply chat_frame_trans; [exact Hturn | apply IH].
    + exact Hturn.
    + assert (Herr : chat_frame name st (log (Print (ErrorNotice err)) st')).
      { eapply chat_frame_trans; [exact Hturn|].
        apply chat_frame_prints; [left; repeat split|]. cbn. eauto. }
      destruct err; try (eapply chat_frame_trans; [exact Herr | apply IH]).
      cbn. eapply chat_frame_trans; [exact Hturn|].
      apply chat_frame_prints; [right; left; repeat split|]. cbn. eauto.
Qed.

Lemma chat_session_frame name ws st :
  chat_frame name st (snd (chat_with_friend name ws st)).
Proof.
  destruct (friends st !! KStr name) as [fr|] eqn:Hfr.
  - rewrite (chat_with_friend_enters name fr ws st Hfr).
    eapply chat_frame_trans; [|apply chat_loop_frame].
    apply chat_frame_prints.
    + right; right. apply opened_same.
    + rewrite opened_trace. eauto.
  - unfold chat_with_friend. rewrite Hfr. cbn.
    apply chat_frame_prints; [left; repeat split|]. cbn. eauto.
Qed.

(** X10. A chat session, whatever is typed and however the sends go,
    never adds or removes a friend and never changes a friend's address;
    it can clear a [connected] flag but never sets one.  The pending
    requests are not touched. *)
Theorem chat_session_keeps_friends name ws st key :
  let st' := snd (chat_with_friend name ws st) in
  (friends st !! key = None -> friends st' !! key = None) /\
  (forall fr, friends st !! key = Some fr ->
     exists fr', friends st' !! key = Some fr' /\
       fr_ip fr' = fr_ip fr /\ fr_port fr' = fr_port fr /\
       (fr_connected fr' = true -> fr_connected fr = true)) /\
  friend_requests st' = friend_requests st.
Proof.
  destruct (chat_session_frame name ws st) as (Hq & _ & _ & Hf & _).
  specialize (Hf key). cbv zeta. split; [|split; [|exact Hq]].
  - intros Hnone. rewrite Hnone in Hf. inversion Hf. reflexivity.
  - intros fr Hsome. rewrite Hsome in Hf. inversion Hf as [a fr' Hfaded|].
    subst. exists fr'. destruct Hfaded as (?&?&?). auto.
Qed.

Lemma chat_session_keeps_friends_witness :
  let st' := snd (chat_with_friend "bob"
                    [Sample.offline; Sample.typing "are you there" true]
                    Sample.alice_with_bob) in
  exists fr', friends st' !! KStr "bob" = Some fr' /\
    fr_ip fr' = JStr "10.0.0.5" /\ fr_port fr' = JInt 55888.
Proof.
  destruct (chat_session_keeps_friends "bob"
              [Sample.offline; Sample.typing "are you there" true]
              Sample.alice_with_bob (KStr "bob")) as (_ & Hkeep & _).
  destruct (Hkeep {| fr_ip := JStr "10.0.0.5"; fr_port := JInt 55888;
                     fr_connected := true |}) as (fr' & H1 & H2 & H3 & _).
  - vm_compute. reflexivity.
  - exists fr'. auto.
Defined.

(** X11. A chat session only ever adds to the conversation with the
    partner, and what it adds are outgoing messages from the local user;
    every other conversation is left as it was. *)
Theorem chat_session_appends_outgoing name ws st :
  let st' := snd (chat_with_friend name ws st) in
  (forall key, key <> KStr name ->
     conversations st' !! key = conversations st !! key) /\
  exists more,
    conversation_of st' (KStr name) = conversation_of st (KStr name) ++ more /\
    Forall (fun m => msg_direction m = outgoing /\
                     msg_from m = JStr (username st)) more.
Proof.
  destruct (chat_session_frame name ws st) as (_ & _ & _ & _ & Ho & Hc & _).
  cbv zeta. split; [exact Ho | exact Hc].
Qed.

Lemma chat_session_appends_outgoing_witness :
  let st' := snd (chat_with_friend "bob" [Sample.typing "hello" true]
                    Sample.alice_with_bob) in
  conversations st' !! KStr "carol"
    = conversations Sample.alice_with_bob !! KStr "carol".
Proof.
  destruct (chat_session_appends_outgoing "bob" [Sample.typing "hello" true]
              Sample.alice_with_bob) as (Hother & _).
  apply Hother. discriminate.
Defined.

(** X12. Typing [exit] (in any case, blanks around it ignored) or
    interrupting leaves the chat: the call returns [None] with no chat
    open, nothing is sent or stored, and later keys are left unread. *)
Theorem leaving_chat w name fr more st :
  friends st !! KStr name = Some fr ->
  (exists line, stdin w = Line line /\ lower (strip line) = "exit")
    \/ stdin w = Interrupt ->
  chat_with_friend name (w :: more) st
    = (Returned PyNone,
       log (Print LeftChat)
         (set_current_chat None (log (Input "") (opened name st)))).
Proof.
  intros Hfr Hkey. rewrite (chat_with_friend_enters name fr _ st Hfr).
  cbn [chat_loop].
  destruct (decide (current_chat (opened name st) = Some name)) as [_|Hn].
  2:{ exfalso. apply Hn.
      destruct (opened_same name st) as (_&_&_&_&_& Hcur &_). exact Hcur. }
  unfold chat_turn, input, bind, modify, ret, raise, print.
  destruct Hkey as [(line & -> & Hexit) | ->].
  - rewrite Hexit. reflexivity.
  - reflexivity.
Qed.

Lemma leaving_chat_witness :
  let '(r, st') := chat_with_friend "bob"
                     [Sample.typing " Exit " true; Sample.typing "hi" true]
                     Sample.alice_with_bob in
  r = Returned PyNone /\ current_chat st' = None /\
  conversations st' = conversations Sample.alice_with_bob.
Proof.
  rewrite (leaving_chat (Sample.typing " Exit " true) "bob"
    {| fr_ip := JStr "10.0.0.5"; fr_port := JInt 55888;
       fr_connected := true |}
    [Sample.typing "hi" true] Sample.alice_with_bob).
  - split; [reflexivity|]. split; [reflexivity|].
    destruct (opened_same "bob" Sample.alice_with_bob) as (_&_&_&_& Hc &_).
    exact Hc.
  - vm_compute. reflexivity.
  - left. exists " Exit ". split; vm_compute; reflexivity.
Defined.

(** X13. A line that is empty or all blanks is read and passed over:
    nothing is sent, nothing is stored, and the chat goes on waiting. *)
Theorem blank_line_is_skipped w name fr line st :
  friends st !! KStr name = Some fr ->
  stdin w = Line line ->
  strip line = "" ->
  chat_with_friend name [w] st
    = (AwaitingInput, log (Input "") (opened name st)).
Proof.
  intros Hfr Hin Hblank. rewrite (chat_with_friend_enters name fr _ st Hfr).
  assert (Hcur : current_chat (opened name st) = Some name).
  { destruct (opened_same name st) as (_&_&_&_&_& Hcur &_). exact Hcur. }
  revert Hcur. generalize (opened name st). intros o Hcur.
  cbn [chat_loop].
  destruct (decide (current_chat o = Some name)) as [_|Hn]; [|contradiction].
  unfold chat_turn, input, bind, modify, ret, raise, print.
  rewrite Hin, Hblank. cbn.
  destruct (decide (current_chat o = Some name)) as [_|Hn];
    [reflexivity | contradiction].
Qed.

Lemma blank_line_is_skipped_witness :
  chat_with_friend "bob" [Sample.typing "   " true] Sample.alice_with_bob
    = (AwaitingInput, log (Input "") (opened "bob" Sample.alice_with_bob)).
Proof.
  apply (blank_line_is_skipped (Sample.typing "   " true) "bob"
    {| fr_ip := JStr "10.0.0.5"; fr_port := JInt 55888;
       fr_connected := true |} "   " Sample.alice_with_bob);
    vm_compute; reflexivity.
Defined.

Lemma chat_loop_at_eof name fr ws : forall st,
  current_chat st = Some name ->
  Forall (fun w => stdin w = Eof) ws ->
  chat_loop name fr ws st
    = (AwaitingInput,
       fold_left (fun s _ => log (Print (ErrorNotice EOFError))
                               (log (Input "") s)) ws st).
Proof.
  induction ws as [|w ws IH]; intros st Hcur Heof; cbn [chat_loop fold_left].
  - destruct (decide (current_chat st = Some name)); [reflexivity|].
    contradiction.
  - destruct (decide (current_chat st = Some name)); [|contradiction].
    inversion Heof as [|? ? Hw Hrest]; subst.
    unfold chat_turn, input, bind, modify, ret, raise. rewrite Hw.
    apply IH; [exact Hcur | exact Hrest].
Qed.

(** X14. End of input does not end a chat.  Each read that hits the end
    prints an error and the loop reads again, so however many reads fail,
    the call is still waiting and has sent and stored nothing. *)
Theorem end_of_input_keeps_chat_open name fr ws st :
  friends st !! KStr name = Some fr ->
  Forall (fun w => stdin w = Eof) ws ->
  chat_with_friend name ws st
    = (AwaitingInput,
       fold_left (fun s _ => log (Print (ErrorNotice EOFError))
                               (log (Input "") s)) ws (opened name st)).
Proof.
  intros Hfr Heof. rewrite (chat_with_friend_enters name fr _ st Hfr).
  apply chat_loop_at_eof; [|exact Heof].
  destruct (opened_same name st) as (_&_&_&_&_& Hcur &_). exact Hcur.
Qed.

Lemma end_of_input_keeps_chat_open_witness :
  fst (chat_with_friend "bob" [Scene.at_eof; Scene.at_eof; Scene.at_eof]
         Sample.alice_with_bob) = AwaitingInput.
Proof.
  rewrite (end_of_input_keeps_chat_open "bob"
    {| fr_ip := JStr "10.0.0.5"; fr_port := JInt 55888;
       fr_connected := true |}
    [Scene.at_eof; Scene.at_eof; Scene.at_eof] Sample.alice_with_bob).
  - reflexivity.
  - vm_compute. reflexivity.
  - repeat constructor.
Defined.

(** ** Two nodes *)

Lemma wire_request_fields from_user from_ip from_port :
  exists d,
    wire_json (friend_request from_user from_ip from_port) = JObj d /\
    d !! "type" = Some (JStr "friend_request") /\
    d !! "from_user" = Some (JStr from_user) /\
    d !! "from_ip" = Some (JStr from_ip) /\
    d !! "from_port" = Some (JInt from_port).
Proof. eexists. split; [reflexivity|]. repeat split. Qed.

Lemma wire_accept_fields from_user :
  exists d,
    wire_json (friend_accept from_user) = JObj d /\
    d !! "type" = Some (JStr "friend_accept") /\
    d !! "from_user" = Some (JStr from_user).
Proof. eexists. split; [reflexivity|]. repeat split. Qed.

Lemma wire_chat_fields from_user content :
  exists d,
    wire_json (chat_message from_user content) = JObj d /\
    d !! "type" = Some (JStr "chat_message") /\
    d !! "from_user" = Some (JStr from_user) /\
    d !! "content" = Some (JStr content).
Proof. eexists. split; [reflexivity|]. repeat split. Qed.

Lemma accepted_request_run w d from_user from_ip from_port answer key st :
  d !! "type" = Some (JStr "friend_request") ->
  d !! "from_user" = Some from_user ->
  d !! "from_ip" = Some from_ip ->
  d !! "from_port" = Some from_port ->
  stdin w = Line answer ->
  strip (lower answer) = "y" ->
  to_key from_user = Some key ->
  exists st',
    process_incoming_message w (JObj d) st = (Ok tt, st') /\
    friends st'
      = <[key := {| fr_ip := from_ip; fr_port := from_port;
                    fr_connected := true |}]> (friends st) /\
    trace st' = trace st ++
      [Print (FriendRequestFrom from_user); Input "Accept? (y/n): ";
       Sent from_ip from_port (friend_accept (username st)) (connects w);
       Print (NowYourFriend from_user); Print Prompt].
Proof.
  intros Ht Hu Hip Hport Hin Hy Hk.
  unfold process_incoming_message, get_method, subscript, hash, input, print,
    save_data, gets, modify, send_direct_message, bind, ret, raise.
  rewrite Ht. cbn. rewrite Hu, Hip, Hport, Hin. cbn.
  rewrite Hy, Hk. cbn.
  eexists. split; [reflexivity|]. cbn. split; [reflexivity|].
  rewrite <- !app_assoc. reflexivity.
Qed.

(** X15. The handshake is one-sided.  alice sends a friend request that
    goes through, bob's node receives that very message and bob accepts,
    and alice's node receives bob's reply.  Then bob holds a friend record
    for alice with the address her request gave, and his reply went to
    that address; alice holds her pending request and the friends she had
    before, so unless bob was her friend already her [chat_with_friend]
    with bob is refused. *)
Theorem handshake_is_one_sided
  wa wb wa' alice bob bob_name bob_ip bob_port answer :
  connects wa = true ->
  stdin wb = Line answer ->
  strip (lower answer) = "y" ->
  let request := friend_request (username alice) (get_local_ip wa)
                   (port alice) in
  let reply := friend_accept (username bob) in
  let alice1 := snd (add_friend wa bob_name bob_ip bob_port alice) in
  let bob1 := snd (process_incoming_message wb (wire_json request) bob) in
  let alice2 := snd (process_incoming_message wa' (wire_json reply) alice1) in
  In (Sent (JStr bob_ip) (JInt bob_port) request true) (trace alice1) /\
  friends bob1 !! KStr (username alice)
    = Some {| fr_ip := JStr (get_local_ip wa); fr_port := JInt (port alice);
              fr_connected := true |} /\
  In (Sent (JStr (get_local_ip wa)) (JInt (port alice)) reply (connects wb))
     (trace bob1) /\
  friends alice2 = friends alice /\
  friend_requests alice2 !! bob_name = Some (bob_ip, bob_port) /\
  (friends alice !! KStr bob_name = None ->
   forall ws,
     chat_with_friend bob_name ws alice2
       = (Returned PyNone, log (Print (NotYourFriend bob_name)) alice2)).
Proof.
  intros Hsend Hin Hy request reply alice1 bob1 alice2.
  assert (Ha1 : friends alice1 = friends alice /\
                friend_requests alice1
                  = <[bob_name := (bob_ip, bob_port)]> (friend_requests alice)
                /\ In (Sent (JStr bob_ip) (JInt bob_port) request true)
                      (trace alice1)).
  { subst alice1 request. unfold add_friend. run. rewrite Hsend. cbn.
    repeat split. apply in_or_app. left. apply in_or_app. right.
    cbn. auto. }
  destruct Ha1 as (Hf1 & Hq1 & Hs1).
  destruct (wire_request_fields (username alice) (get_local_ip wa)
              (port alice)) as (d & Hd & Ht & Hu & Hip & Hport).
  destruct (accepted_request_run wb d _ _ _ answer (KStr (username alice)) bob
              Ht Hu Hip Hport Hin Hy eq_refl) as (b' & Hrun & Hfb & Htb).
  assert (Hb1 : bob1 = b').
  { subst bob1 request. rewrite Hd, Hrun. reflexivity. }
  destruct (wire_accept_fields (username bob)) as (d' & Hd' & Ht' & Hu').
  assert (Ha2 : same_data alice1 alice2).
  { subst alice2 reply. rewrite Hd'.
    apply (reply_only_prints wa' d' "friend_accept" alice1 Ht').
    left. reflexivity. }
  destruct Ha2 as (_ & _ & Hf2 & Hq2 & _).
  split; [exact Hs1|]. split; [|split; [|split; [|split]]].
  - rewrite Hb1, Hfb. apply lookup_insert_eq.
  - rewrite Hb1, Htb. apply in_or_app. right. cbn. auto.
  - congruence.
  - rewrite Hq2, Hq1. apply lookup_insert_eq.
  - intros Hnone ws. unfold chat_with_friend.
    rewrite Hf2, Hf1, Hnone. reflexivity.
Qed.

Lemma handshake_is_one_sided_witness :
  let alice1 := snd (add_friend Sample.calm "bob" "10.0.0.5" 55888
                       Sample.alice) in
  let bob1 := snd (process_incoming_message Sample.calm
                     (wire_json (friend_request "alice" "10.0.0.1" 55888))
                     Scene.bob) in
  let alice2 := snd (process_incoming_message Sample.calm
                       (wire_json (friend_accept "bob")) alice1) in
  is_Some (friends bob1 !! KStr "alice") /\
  friends alice2 !! KStr "bob" = None.
Proof.
  destruct (handshake_is_one_sided Sample.calm Sample.calm Sample.calm
              Sample.alice Scene.bob "bob" "10.0.0.5" 55888 " Y ")
    as (_ & Hbob & _ & Halice & _); try (vm_compute; reflexivity).
  split.
  - eexists. exact Hbob.
  - etransitivity;
      [exact (f_equal (fun m => m !! KStr "bob") Halice)|].
    vm_compute. reflexivity.
Defined.

(** X16. A line of chat arrives as it was typed.  When a node sends a
    line to a friend and the peer's node receives that very message, the
    sender makes one send, the only one of the call, to the friend's
    address, and files one outgoing message under the name it knows the
    friend by; the receiver files one incoming message with the same
    content under the sender's username. *)
Theorem chat_line_reaches_peer ws wr sender receiver name fr line :
  friends sender !! KStr name = Some fr ->
  stdin ws = Line line ->
  strip line <> "" ->
  lower (strip line) <> "exit" ->
  connects ws = true ->
  let content := strip line in
  let message := chat_message (username sender) content in
  let sender1 := snd (chat_with_friend name [ws] sender) in
  let receiver1 := snd (process_incoming_message wr (wire_json message)
                          receiver) in
  trace sender1 = trace sender ++
    [Print (ChatHeader name); Print Rule] ++
    map Print (history_lines name sender) ++
    [Print Rule; Input "";
     Sent (fr_ip fr) (fr_port fr) message true;
     Print (YouSaid content)] /\
  conversation_of sender1 (KStr name)
    = conversation_of sender (KStr name)
        ++ [{| msg_time := now ws; msg_from := JStr (username sender);
               msg_content := JStr content; msg_direction := outgoing |}] /\
  conversation_of receiver1 (KStr (username sender))
    = conversation_of receiver (KStr (username sender))
        ++ [{| msg_time := now wr; msg_from := JStr (username sender);
               msg_content := JStr content; msg_direction := incoming |}].
Proof.
  intros Hfr Hin Hne Hexit Hsend content message sender1 receiver1.
  assert (Hs : trace sender1 = trace sender ++
                 [Print (ChatHeader name); Print Rule] ++
                 map Print (history_lines name sender) ++
                 [Print Rule; Input "";
                  Sent (fr_ip fr) (fr_port fr) message true;
                  Print (YouSaid content)]
               /\ conversation_of sender1 (KStr name)
                  = conversation_of sender (KStr name)
                      ++ [{| msg_time := now ws;
                             msg_from := JStr (username sender);
                             msg_content := JStr content;
                             msg_direction := outgoing |}]).
  { subst sender1. rewrite (chat_with_friend_enters name fr _ sender Hfr).
    destruct (opened_same name sender) as (Hu & _ & _ & _ & Hc & Hcur & _).
    pose proof (opened_trace name sender) as Ht.
    revert Hu Hc Hcur Ht. generalize (opened name sender).
    intros o Hu Hc Hcur Ht.
    cbn in Hu, Hc, Hcur. cbn [chat_loop].
    destruct (decide (current_chat o = Some name)) as [_|Hn];
      [|contradiction].
    rewrite (chat_turn_sends ws name fr line o Hin Hne Hexit).
    destruct (chat_send_delivered ws name fr (strip line) (log (Input "") o)
                Hsend) as (o' & -> & Hc' & _ & Hcur' & _ & Ht').
    cbn in Hc', Hcur', Ht'.
    destruct (decide (current_chat o' = Some name)) as [_|Hn];
      [|congruence].
    cbn [snd]. split.
    - rewrite Ht', Ht, Hu, <- !app_assoc. cbn. rewrite <- !app_assoc.
      reflexivity.
    - unfold conversation_of at 1. rewrite Hc', lookup_insert_eq.
      unfold conversation_of. cbn. rewrite Hc, Hu. reflexivity. }
  destruct Hs as (Hs1 & Hs2). split; [exact Hs1|]. split; [exact Hs2|].
  destruct (wire_chat_fields (username sender) content)
    as (d & Hd & Ht & Hu & Hc).
  destruct (chat_message_run wr d (JStr (username sender)) (JStr content)
              (KStr (username sender)) Ht Hu Hc eq_refl receiver)
    as (r' & Hrun & Hconv & _).
  subst receiver1 message. rewrite Hd, Hrun. cbn [snd].
  unfold conversation_of at 1. rewrite Hconv, lookup_insert_eq. reflexivity.
Qed.

Lemma chat_line_reaches_peer_witness :
  let alice1 := snd (chat_with_friend "bob" [Sample.typing " hello " true]
                       Sample.alice_with_bob) in
  let bob1 := snd (process_incoming_message Sample.calm
                     (wire_json (chat_message "alice" "hello")) Scene.bob) in
  trace alice1 = trace Sample.alice_with_bob ++
    [Print (ChatHeader "bob"); Print Rule; Print NoMessagesYet; Print Rule;
     Input "";
     Sent (JStr "10.0.0.5") (JInt 55888) (chat_message "alice" "hello") true;
     Print (YouSaid "hello")] /\
  msg_content <$> conversation_of alice1 (KStr "bob") = [JStr "hello"] /\
  msg_content <$> conversation_of bob1 (KStr "alice") = [JStr "hello"].
Proof.
  destruct (chat_line_reaches_peer (Sample.typing " hello " true) Sample.calm
              Sample.alice_with_bob Scene.bob "bob"
              {| fr_ip := JStr "10.0.0.5"; fr_port := JInt 55888;
                 fr_connected := true |} " hello ")
    as (Htrace & Hout & Hin);
    try (vm_compute; reflexivity); try (vm_compute; discriminate).
  split; [|split].
  - cbv zeta. rewrite Htrace. vm_compute. reflexivity.
  - cbv zeta. rewrite Hout. vm_compute. reflexivity.
  - cbv zeta. change "hello" with (strip " hello ").
    change "alice" with (username Sample.alice_with_bob).
    rewrite Hin. vm_compute. reflexivity.
Defined.

(** ** What reaches the disk *)

(** X17. The offline mark does not survive a restart.  When the data
    file holds what the node holds and a chat line fails to send, the
    friend is marked not connected in memory, but a node started from
    the data file has the friends map from before the failure. *)
Theorem offline_mark_is_not_saved w name fr line st me :
  in_sync st ->
  friends st !! KStr name = Some fr ->
  stdin w = Line line ->
  strip line <> "" ->
  lower (strip line) <> "exit" ->
  connects w = false ->
  let st' := snd (chat_with_friend name [w] st) in
  friends st' !! KStr name
    = Some {| fr_ip := fr_ip fr; fr_port := fr_port fr;
              fr_connected := false |} /\
  friends (init me (data_file st')) = friends st.
Proof.
  intros Hsync Hfr Hin Hne Hexit Hfail st'. subst st'.
  rewrite (chat_with_friend_enters name fr _ st Hfr).
  destruct (opened_same name st) as (_ & _ & Hf & _ & _ & Hcur & Hd).
  revert Hf Hcur Hd. generalize (opened name st). intros o Hf Hcur Hd.
  cbn in Hf, Hcur, Hd. cbn [chat_loop].
  destruct (decide (current_chat o = Some name)) as [_|Hn]; [|contradiction].
  rewrite (chat_turn_sends w name fr line o Hin Hne Hexit).
  assert (Hfr' : friends (log (Input "") o) !! KStr name = Some fr)
    by (cbn; rewrite Hf; exact Hfr).
  destruct (chat_send_failed w name fr (strip line) fr (log (Input "") o)
              Hfail Hfr') as (o' & -> & Hf' & _ & Hcur' & Hd' & _).
  cbn in Hf', Hcur', Hd'.
  destruct (decide (current_chat o' = Some name)) as [_|Hn]; [|congruence].
  cbn [snd]. split.
  - rewrite Hf'. apply lookup_insert_eq.
  - rewrite Hd', Hd. unfold in_sync in Hsync. rewrite Hsync.
    unfold init, load_data, bind, gets, modify. cbn. reflexivity.
Qed.

Lemma offline_mark_is_not_saved_witness :
  let st' := snd (chat_with_friend "bob" [Sample.offline]
                    Sample.alice_with_bob) in
  fr_connected <$> friends st' !! KStr "bob" = Some false /\
  fr_connected <$> friends (init "alice" (data_file st')) !! KStr "bob"
    = Some true.
Proof.
  destruct (offline_mark_is_not_saved Sample.offline "bob"
              {| fr_ip := JStr "10.0.0.5"; fr_port := JInt 55888;
                 fr_connected := true |} "hello" Sample.alice_with_bob "alice")
    as (Hmem & Hdisk);
    try (vm_compute; reflexivity); try (vm_compute; discriminate).
  cbv zeta. split.
  - rewrite Hmem. reflexivity.
  - rewrite Hdisk. vm_compute. reflexivity.
Defined.

(** X18. [add_friend] writes through.  When the data file holds what the
    node holds and writes go through, it still does after [add_friend],
    whether or not the request could be sent, so a restart gives back the
    pending requests that were in memory. *)
Theorem add_friend_write_through w name peer_ip peer_port st me :
  disk w = SaveOk ->
  in_sync st ->
  let st' := snd (add_friend w name peer_ip peer_port st) in
  in_sync st' /\
  friend_requests (init me (data_file st')) = friend_requests st'.
Proof.
  intros Hok Hsync st'.
  assert (Hs : in_sync st').
  { subst st'. unfold in_sync in *. unfold add_friend. run.
    destruct (connects w); cbn.
    - apply written_ok, Hok.
    - exact Hsync. }
  clearbody st'. split; [exact Hs|].
  unfold in_sync in Hs. unfold init, load_data, bind, gets, modify. cbn.
  rewrite Hs. reflexivity.
Qed.

Lemma add_friend_write_through_witness :
  let st' := snd (add_friend Sample.calm "carol" "10.0.0.7" 55888
                    Sample.alice_with_bob) in
  friend_requests (init "alice" (data_file st')) !! "carol"
    = Some ("10.0.0.7", 55888).
Proof.
  destruct (add_friend_write_through Sample.calm "carol" "10.0.0.7" 55888
              Sample.alice_with_bob "alice") as (_ & Hq).
  - reflexivity.
  - vm_compute. reflexivity.
  - etransitivity; [exact (f_equal (fun m => m !! "carol") Hq)|].
    vm_compute. reflexivity.
Defined.

(** ** What an inbound message can make the node send *)

Lemma only_prints_no_send st st' :
  (exists notes, trace st' = trace st ++ map Print notes) ->
  exists out, trace st' = trace st ++ out /\ List.filter is_send out = [].
Proof.
  intros (notes & Hn). exists (map Print notes). split; [exact Hn|].
  clear Hn. induction notes as [|n notes IH]; [reflexivity | exact IH].
Qed.

(** X19. The only thing an inbound message can make the node send is one
    reply to a [friend_request]: an accept or a reject carrying the local
    username, sent to the address that the request itself gives.  Chat
    messages, accepts, rejects and everything else cause no send. *)
Theorem inbound_sends_one_reply_at_most w v st :
  let st' := snd (process_incoming_message w v st) in
  exists out,
    trace st' = trace st ++ out /\
    (List.filter is_send out = [] \/
     exists d from_ip from_port reply,
       v = JObj d /\
       d !! "type" = Some (JStr "friend_request") /\
       d !! "from_ip" = Some from_ip /\
       d !! "from_port" = Some from_port /\
       (reply = friend_accept (username st)
        \/ reply = friend_reject (username st)) /\
       List.filter is_send out = [Sent from_ip from_port reply (connects w)]).
Proof.
  cbv zeta.
  assert (Hnone : exists out, trace st = trace st ++ out /\
            (List.filter is_send out = [] \/
             exists d from_ip from_port reply,
               v = JObj d /\
               d !! "type" = Some (JStr "friend_request") /\
               d !! "from_ip" = Some from_ip /\
               d !! "from_port" = Some from_port /\
               (reply = friend_accept (username st)
                \/ reply = friend_reject (username st)) /\
               List.filter is_send out
                 = [Sent from_ip from_port reply (connects w)])).
  { exists []. split; [by rewrite app_nil_r | left; reflexivity]. }
  destruct v as [| | | | |d]; try exact Hnone.
  unfold process_incoming_message, get_method, bind at 1, ret at 1.
  destruct (d !! "type") as [[| | |t| |]|] eqn:Ht; try exact Hnone.
  cbn [is_str].
  destruct (String.eqb t "friend_request") eqn:E1.
  { apply String.eqb_eq in E1. subst t.
    unfold subscript, hash, input, print, save_data, gets, modify,
      send_direct_message, bind, ret, raise.
    destruct (d !! "from_user") as [u|]; [|exact Hnone].
    destruct (d !! "from_ip") as [ip|] eqn:Hip; [|exact Hnone].
    destruct (d !! "from_port") as [p|] eqn:Hp; [|exact Hnone].
    destruct (stdin w) as [answer| |]; cbn.
    - destruct (String.eqb (strip (lower answer)) "y").
      + destruct (to_key u) as [k|]; cbn.
        * eexists. split; [rewrite <- !app_assoc; reflexivity|].
          right. exists d, ip, p, (friend_accept (username st)).
          repeat split; auto.
        * eexists. split; [rewrite <- !app_assoc; reflexivity|].
          left. reflexivity.
      + cbn. eexists. split; [rewrite <- !app_assoc; reflexivity|].
        right. exists d, ip, p, (friend_reject (username st)).
        repeat split; auto.
    - eexists. split; [rewrite <- !app_assoc; reflexivity|]. left. reflexivity.
    - eexists. split; [rewrite <- !app_assoc; reflexivity|]. left. reflexivity. }
  assert (Hprints : forall st',
            (exists notes, trace st' = trace st ++ map Print notes) ->
            exists out, trace st' = trace st ++ out /\
              (List.filter is_send out = [] \/
               exists d0 from_ip from_port reply,
                 JObj d = JObj d0 /\
                 d0 !! "type" = Some (JStr "friend_request") /\
                 d0 !! "from_ip" = Some from_ip /\
                 d0 !! "from_port" = Some from_port /\
                 (reply = friend_accept (username st)
                  \/ reply = friend_reject (username st)) /\
                 List.filter is_send out
                   = [Sent from_ip from_port reply (connects w)])).
  { intros st' Hp. destruct (only_prints_no_send st st' Hp) as (out & ? & ?).
    exists out. auto. }
  destruct (String.eqb t "friend_accept") eqn:E2.
  { unfold subscript, print, modify, bind, ret, raise.
    destruct (d !! "from_user") as [u|]; [|exact Hnone].
    apply Hprints. cbn. eexists [_; _]. cbn.
    rewrite <- !app_assoc. reflexivity. }
  destruct (String.eqb t "friend_reject") eqn:E3.
  { unfold subscript, print, modify, bind, ret, raise.
    destruct (d !! "from_user") as [u|]; [|exact Hnone].
    apply Hprints. cbn. eexists [_; _]. cbn.
    rewrite <- !app_assoc. reflexivity. }
  destruct (String.eqb t "chat_message") eqn:E4; [|exact Hnone].
  apply String.eqb_eq in E4. subst t.
  destruct (d !! "from_user") as [u|] eqn:Hu.
  2:{ unfold subscript, bind, raise. rewrite Hu. exact Hnone. }
  destruct (d !! "content") as [c|] eqn:Hc.
  2:{ unfold subscript, bind, raise, ret. rewrite Hu, Hc. exact Hnone. }
  destruct (to_key u) as [k|] eqn:Hk.
  2:{ unfold subscript, hash, bind, raise, ret. rewrite Hu, Hc, Hk.
      exact Hnone. }
  apply Hprints.
  unfold append_message, subscript, hash, print, save_data, gets, modify,
    bind, ret, raise.
  rewrite Hu, Hc, Hk. cbn.
  destruct (conversations st !! k) as [l|] eqn:Hl; cbn.
  - destruct (decide (is_Some (Some l))) as [_|Hn];
      [|exfalso; apply Hn; eexists; reflexivity].
    cbn. rewrite Hl. cbn.
    destruct (chat_differs (current_chat st) u); cbn;
      [eexists [_; _] | eexists [_]]; cbn; rewrite <- ?app_assoc;
      reflexivity.
  - destruct (decide (is_Some (@None (list Message)))) as [[? Hs]|_];
      [discriminate Hs|].
    cbn. rewrite lookup_insert_eq. cbn.
    destruct (chat_differs (current_chat st) u); cbn;
      [eexists [_; _] | eexists [_]]; cbn; rewrite <- ?app_assoc;
      reflexivity.
Qed.

(** ** Strings *)

Lemma append_assoc (a b c : string) : (a +:+ b) +:+ c = a +:+ (b +:+ c).
Proof.
  induction a as [|x a IH]; [reflexivity|].
  change (String x ((a +:+ b) +:+ c) = String x (a +:+ (b +:+ c))).
  f_equal. exact IH.
Qed.

Lemma append_empty_r (a : string) : a +:+ "" = a.
Proof.
  induction a as [|x a IH]; [reflexivity|].
  change (String x (a +:+ "") = String x a). f_equal. exact IH.
Qed.

Ltac push_append :=
  repeat match goal with
  | |- context [String ?a ?s +:+ ?t] =>
      change (String a s +:+ t) with (String a (s +:+ t))
  | |- context [EmptyString +:+ ?t] => change (EmptyString +:+ t) with t
  end.

Ltac push_append_in H :=
  repeat match type of H with
  | context [String ?a ?s +:+ ?t] =>
      change (String a s +:+ t) with (String a (s +:+ t)) in H
  | context [EmptyString +:+ ?t] => change (EmptyString +:+ t) with t in H
  end.

Lemma rev_app_spec (a b : string) : String.rev_app a b = String.rev a +:+ b.
Proof.
  revert b. induction a as [|x a IH]; intros b; [reflexivity|].
  unfold String.rev. cbn. rewrite (IH (String x b)), (IH (String x "")).
  rewrite append_assoc. reflexivity.
Qed.

Lemma rev_cons (x : ascii) (a : string) :
  String.rev (String x a) = String.rev a +:+ String x "".
Proof. unfold String.rev at 1. cbn. apply rev_app_spec. Qed.

Lemma rev_append (a b : string) :
  String.rev (a +:+ b) = String.rev b +:+ String.rev a.
Proof.
  induction a as [|x a IH].
  - change (String.rev b = String.rev b +:+ ""). by rewrite append_empty_r.
  - change (String x a +:+ b) with (String x (a +:+ b)).
    rewrite !rev_cons, IH. apply append_assoc.
Qed.

Lemma rev_rev (a : string) : String.rev (String.rev a) = a.
Proof.
  induction a as [|x a IH]; [reflexivity|].
  rewrite rev_cons, rev_append, IH. reflexivity.
Qed.

Lemma string_strong_ind (P : string -> Prop) :
  (forall s, (forall t, (String.length t < String.length s)%nat -> P t) -> P s) ->
  forall s, P s.
Proof.
  intros Hstep s.
  assert (H : forall n t, (String.length t < n)%nat -> P t).
  { induction n as [|n IH]; intros t Hlt; [lia|].
    apply Hstep. intros u Hu. apply IH. lia. }
  apply (H (S (String.length s))). lia.
Qed.

Section Skipping.

Variable two : ascii -> ascii -> bool.
Variable three : ascii -> ascii -> ascii -> bool.

Lemma skip_one a :
  skip_blanks two three (String a "") = if space1 a then "" else String a "".
Proof. reflexivity. Qed.

Lemma skip_two a b :
  skip_blanks two three (String a (String b ""))
    = if space1 a then skip_blanks two three (String b "")
      else if two a b then "" else String a (String b "").
Proof. reflexivity. Qed.

Lemma skip_three a b c s :
  skip_blanks two three (String a (String b (String c s)))
    = if space1 a then skip_blanks two three (String b (String c s))
      else if two a b then skip_blanks two three (String c s)
      else if three a b c then skip_blanks two three s
      else String a (String b (String c s)).
Proof. reflexivity. Qed.

(** Skipping stops where no white space begins. *)
Lemma skip_blanks_clean s : blank_head two three (skip_blanks two three s) = false.
Proof.
  induction s as [s IH] using string_strong_ind.
  destruct s as [|a [|b [|c s3]]];
    rewrite ?skip_one, ?skip_two, ?skip_three.
  - reflexivity.
  - destruct (space1 a) eqn:Ha; [reflexivity|].
    cbn [blank_head]. rewrite Ha. reflexivity.
  - destruct (space1 a) eqn:Ha; [apply IH; cbn; lia|].
    destruct (two a b) eqn:Hab; [reflexivity|].
    cbn [blank_head]. rewrite Ha, Hab. reflexivity.
  - destruct (space1 a) eqn:Ha; [apply IH; cbn; lia|].
    destruct (two a b) eqn:Hab; [apply IH; cbn; lia|].
    destruct (three a b c) eqn:Habc; [apply IH; cbn; lia|].
    cbn [blank_head]. rewrite Ha, Hab, Habc. reflexivity.
Qed.

(** Where no white space begins, nothing is skipped. *)
Lemma skip_blanks_none s :
  blank_head two three s = false -> skip_blanks two three s = s.
Proof.
  destruct s as [|a [|b [|c s3]]];
    rewrite ?skip_one, ?skip_two, ?skip_three; cbn [blank_head]; intros H.
  - reflexivity.
  - rewrite orb_false_r in H. rewrite H. reflexivity.
  - apply orb_false_elim in H as [Ha H]. rewrite orb_false_r in H.
    rewrite Ha, H. reflexivity.
  - apply orb_false_elim in H as [Ha H]. apply orb_false_elim in H as [Hab H].
    rewrite Ha, Hab, H. reflexivity.
Qed.

(** White space at the head of a text is at the head of any text that
    goes on from it. *)
Lemma blank_head_append s t :
  blank_head two three s = true -> blank_head two three (s +:+ t) = true.
Proof.
  destruct s as [|a [|b [|c s3]]]; cbn [blank_head]; intros H.
  - discriminate.
  - rewrite orb_false_r in H.
    change (String a "" +:+ t) with (String a t). cbn [blank_head].
    rewrite H. reflexivity.
  - change (String a (String b "") +:+ t) with (String a (String b t)).
    cbn [blank_head]. rewrite orb_false_r in H.
    apply orb_true_iff in H as [-> | ->]; [reflexivity|].
    rewrite orb_true_r. destruct t; reflexivity.
  - change (String a (String b (String c s3)) +:+ t)
      with (String a (String b (String c (s3 +:+ t)))).
    cbn [blank_head]. exact H.
Qed.

(** What is skipped is a start of the text. *)
Lemma skip_blanks_suffix s :
  exists skipped, s = skipped +:+ skip_blanks two three s.
Proof.
  induction s as [s IH] using string_strong_ind.
  assert (Hself : exists skipped, s = skipped +:+ s) by (exists ""; reflexivity).
  destruct s as [|a [|b [|c s3]]];
    rewrite ?skip_one, ?skip_two, ?skip_three.
  - exists "". reflexivity.
  - destruct (space1 a); [|exact Hself]. exists (String a ""). reflexivity.
  - destruct (space1 a).
    { destruct (IH (String b "")) as (k & Hk); [cbn; lia|].
      exists (String a k). rewrite Hk at 1. reflexivity. }
    destruct (two a b); [|exact Hself].
    exists (String a (String b "")). reflexivity.
  - destruct (space1 a).
    { destruct (IH (String b (String c s3))) as (k & Hk); [cbn; lia|].
      exists (String a k). rewrite Hk at 1. reflexivity. }
    destruct (two a b).
    { destruct (IH (String c s3)) as (k & Hk); [cbn; lia|].
      exists (String a (String b k)). rewrite Hk at 1. reflexivity. }
    destruct (three a b c); [|exact Hself].
    destruct (IH s3) as (k & Hk); [cbn; lia|].
    exists (String a (String b (String c k))). rewrite Hk at 1. reflexivity.
Qed.

End Skipping.

Lemma rev_empty s : String.rev s = "" -> s = "".
Proof. intros H. rewrite <- (rev_rev s), H. reflexivity. Qed.

(** A text that is all white space ends with white space. *)
Lemma lstrip_all_blank s : lstrip s = "" -> s <> "" -> ends_blank s = true.
Proof.
  unfold lstrip, ends_blank.
  induction s as [s IH] using string_strong_ind.
  intros Hall Hne.
  destruct s as [|a [|b [|c s3]]];
    rewrite ?skip_one, ?skip_two, ?skip_three in Hall.
  - contradiction.
  - destruct (space1 a) eqn:Ha; [|discriminate].
    cbn. rewrite Ha. reflexivity.
  - destruct (space1 a) eqn:Ha.
    { rewrite rev_cons. apply blank_head_append.
      apply IH; [cbn; lia | exact Hall | discriminate]. }
    destruct (space2 a b) eqn:Hab; [|discriminate].
    cbn. unfold space2_back. rewrite Hab. apply orb_true_r.
  - destruct (space1 a) eqn:Ha.
    { rewrite rev_cons. apply blank_head_append.
      apply IH; [cbn; lia | exact Hall | discriminate]. }
    destruct (space2 a b) eqn:Hab.
    { rewrite rev_cons, (rev_cons b), append_assoc. apply blank_head_append.
      apply IH; [cbn; lia | exact Hall | discriminate]. }
    destruct (space3 a b c) eqn:Habc; [|discriminate].
    destruct s3 as [|x s3].
    + cbn. unfold space3_back, space2_back. rewrite Habc.
      rewrite !orb_true_r. reflexivity.
    + rewrite rev_cons, (rev_cons b), (rev_cons c), !append_assoc.
      apply blank_head_append.
      apply IH; [cbn; lia | exact Hall | discriminate].
Qed.

(** What [strip] returns does not end with white space. *)
Lemma strip_end s : ends_blank (strip s) = false.
Proof.
  unfold ends_blank, strip, rstrip. rewrite rev_rev. apply skip_blanks_clean.
Qed.

(** [rstrip] keeps a start of the text. *)
Lemma rstrip_prefix s : exists dropped, s = rstrip s +:+ dropped.
Proof.
  unfold rstrip.
  destruct (skip_blanks_suffix space2_back space3_back (String.rev s))
    as (k & Hk).
  exists (String.rev k).
  rewrite <- rev_append, <- Hk, rev_rev. reflexivity.
Qed.

(** Nor does it begin with white space. *)
Lemma strip_start s : begins_blank (strip s) = false.
Proof.
  unfold begins_blank, strip.
  destruct (rstrip_prefix (lstrip s)) as (k & Hk).
  destruct (blank_head space2 space3 (rstrip (lstrip s))) eqn:Hb;
    [|reflexivity].
  apply (blank_head_append _ _ _ k) in Hb. rewrite <- Hk in Hb.
  unfold lstrip in Hb at 1. rewrite skip_blanks_clean in Hb. discriminate Hb.
Qed.

(** A text that does not end with white space and is not empty does not
    strip to nothing. *)
Lemma strip_keeps_last s : s <> "" -> ends_blank s = false -> strip s <> "".
Proof.
  intros Hne Hend Hstrip. unfold strip, rstrip in Hstrip.
  apply rev_empty in Hstrip.
  destruct (skip_blanks_suffix space2 space3 s) as (k & Hk).
  fold (lstrip s) in Hk.
  destruct (lstrip s) as [|x u] eqn:Hl.
  - rewrite (lstrip_all_blank s Hl Hne) in Hend. discriminate Hend.
  - assert (Hb : blank_head space2_back space3_back (String.rev (String x u))
                 = true).
    { destruct (blank_head space2_back space3_back (String.rev (String x u)))
        eqn:Hb; [reflexivity|].
      apply skip_blanks_none in Hb. rewrite Hb in Hstrip.
      apply rev_empty in Hstrip. discriminate Hstrip. }
    unfold ends_blank in Hend. rewrite Hk, rev_append in Hend.
    rewrite (blank_head_append _ _ _ _ Hb) in Hend. discriminate Hend.
Qed.

Lemma startswith_split prefix s :
  startswith prefix s = true ->
  s = prefix +:+ slice_from (String.length prefix) s.
Proof.
  revert s. induction prefix as [|a prefix IH]; intros s; [reflexivity|].
  destruct s as [|b s]; cbn [startswith slice_from String.length];
    [discriminate|].
  intros H. apply andb_prop in H as [Hab Hrest].
  apply Ascii.eqb_eq in Hab. subst b.
  change (String a s = String a (prefix +:+ slice_from (String.length prefix) s)).
  f_equal. apply IH, Hrest.
Qed.

(** After a prefix that ends with a blank, a stripped line always has
    something left. *)
Lemma argument_is_never_blank prefix body answer :
  String.rev prefix = String " " body ->
  startswith prefix (strip answer) = true ->
  strip (slice_from (String.length prefix) (strip answer)) <> "".
Proof.
  intros Hp Hstart. apply startswith_split in Hstart.
  pose proof (strip_end answer) as Hend. unfold ends_blank in Hend.
  revert Hstart Hend.
  generalize (slice_from (String.length prefix) (strip answer)).
  intros arg Hstart Hend. rewrite Hstart, rev_append, Hp in Hend.
  apply strip_keeps_last.
  - intros ->. discriminate Hend.
  - destruct (ends_blank arg) eqn:Hb; [|reflexivity].
    unfold ends_blank in Hb.
    apply (blank_head_append _ _ _ (String " " body)) in Hb.
    rewrite Hb in Hend. discriminate Hend.
Qed.

(** ** Choosing a username *)

Lemma ask_line w prompt answer sh :
  stdin w = Line answer ->
  ask w prompt sh = (Ok answer, on_node (log (Input prompt)) (set_world w sh)).
Proof.
  intros Hin. unfold ask, in_node, input, bind, modify, ret. cbn.
  rewrite Hin. reflexivity.
Qed.

Lemma ask_fails w prompt sh :
  stdin w = Eof \/ stdin w = Interrupt ->
  exists e, ask w prompt sh
              = (Raise e, on_node (log (Input prompt)) (set_world w sh)) /\
            (stdin w = Interrupt <-> e = KeyboardInterrupt).
Proof.
  unfold ask, in_node, input, bind, modify, ret, raise. cbn.
  intros [Hin | Hin]; rewrite Hin; eexists; (split; [reflexivity|]);
    split; congruence.
Qed.

Lemma ask_unfold w prompt sh :
  ask w prompt sh
    = (match stdin w with
       | Line answer => Ok answer
       | Eof => Raise EOFError
       | Interrupt => Raise KeyboardInterrupt
       end, on_node (log (Input prompt)) (set_world w sh)).
Proof.
  unfold ask, in_node, input, bind, modify, ret, raise. cbn.
  destruct (stdin w); reflexivity.
Qed.

(** X20. When [setup_username] returns, the name it stored is one of
    the lines typed, stripped; it has between 3 and 20 characters and no
    white space at either end.  Friends, conversations, pending requests
    and the data file are as before. *)
Theorem setup_username_stores_valid_name ws sh v sh' :
  setup_username ws sh = (Returned v, sh') ->
  let name := username (node sh') in
  (3 <= char_count name <= 20)%nat /\
  (exists w answer, In w ws /\ stdin w = Line answer /\ name = strip answer) /\
  begins_blank name = false /\
  ends_blank name = false /\
  friends (node sh') = friends (node sh) /\
  conversations (node sh') = conversations (node sh) /\
  friend_requests (node sh') = friend_requests (node sh) /\
  data_file (node sh') = data_file (node sh).
Proof.
  revert sh. induction ws as [|w ws IH]; intros sh; cbn [setup_username];
    [discriminate|].
  destruct (stdin w) as [answer| |] eqn:Hin.
  - rewrite (ask_line w _ answer sh Hin).
    destruct (valid_username (strip answer)) eqn:Hvalid.
    + intros H. injection H as _ <-.
      cbn [node say on_node set_world set_username username friends
           conversations friend_requests data_file log].
      unfold valid_username in Hvalid.
      apply andb_prop in Hvalid as [Hv Hmax]. apply andb_prop in Hv as [_ Hmin].
      apply Nat.leb_le in Hmin, Hmax.
      split; [lia|]. split; [|split; [|split]].
      * exists w, answer. split; [left; reflexivity | auto].
      * apply strip_start.
      * apply strip_end.
      * repeat split.
    + intros H. apply IH in H. cbn in H.
      destruct H as (Hlen & (w' & a' & Hw & Ha) & Hstart & Hend & Hrest).
      split; [exact Hlen|]. split; [|split; [|split]]; auto.
      exists w', a'. split; [right; exact Hw | exact Ha].
  - destruct (ask_fails w "Choose your username: " sh) as (e & -> & _);
      [left; exact Hin | discriminate].
  - destruct (ask_fails w "Choose your username: " sh) as (e & -> & _);
      [right; exact Hin | discriminate].
Qed.

Lemma setup_username_stores_valid_name_witness :
  let sh' := snd (setup_username
                    [Sample.typing "al" true; Sample.typing "  alice " true]
                    Scene.console) in
  (3 <= char_count (username (node sh')) <= 20)%nat.
Proof.
  apply (setup_username_stores_valid_name
           [Sample.typing "al" true; Sample.typing "  alice " true]
           Scene.console PyNone).
  vm_compute. reflexivity.
Defined.

(** ** Adding a friend from the prompt *)

Lemma add_friend_returns w name peer_ip peer_port st :
  fst (add_friend w name peer_ip peer_port st) = Ok PyNone.
Proof. unfold add_friend. run. destruct (connects w); reflexivity. Qed.

Section Adding.

Variable int_of : string -> option Z.
Variables (w1 w2 w3 : World) (answer1 answer2 answer3 : string).
Hypothesis Hin1 : stdin w1 = Line answer1.
Hypothesis Hin2 : stdin w2 = Line answer2.
Hypothesis Hin3 : stdin w3 = Line answer3.

(** [search_and_add] once its three answers are in. *)
Lemma search_and_add_asked query more sh :
  search_and_add int_of query (w1 :: w2 :: w3 :: more) sh
    = let sh3 := on_node (log (Input name_prompt)) (set_world w3
                   (on_node (log (Input port_prompt)) (set_world w2
                      (on_node (log (Input ip_prompt)) (set_world w1
                         (say AddInstructions (say (heading query) sh))))))) in
      match (if String.eqb (strip answer2) "" then Some 55888
             else int_of (strip answer2)) with
      | None => (Raised ValueError, sh3)
      | Some peer_port =>
          if negb (String.eqb (strip answer1) "")
             && negb (String.eqb (strip answer3) "")
          then (Returned PyNone,
                on_node (fun _ =>
                  snd (add_friend w3 (strip answer3) (strip answer1) peer_port
                         (node sh3))) sh3)
          else (Returned PyNone, say IpAndUsernameRequired sh3)
      end.
Proof.
  unfold search_and_add.
  rewrite (ask_line w1 _ answer1 _ Hin1), (ask_line w2 _ answer2 _ Hin2),
    (ask_line w3 _ answer3 _ Hin3).
  cbv zeta.
  destruct (if String.eqb (strip answer2) "" then Some 55888
            else int_of (strip answer2)) as [peer_port|]; [|reflexivity].
  destruct (negb (String.eqb (strip answer1) "")
            && negb (String.eqb (strip answer3) "")); [|reflexivity].
  unfold in_node. cbn [node on_node set_world world].
  pose proof (add_friend_returns w3 (strip answer3) (strip answer1) peer_port
    (log (Input name_prompt) (log (Input port_prompt) (log (Input ip_prompt)
       (node sh))))) as Hret.
  cbn [say node] in *.
  destruct (add_friend w3 (strip answer3) (strip answer1) peer_port _)
    as [r st]. cbn in Hret. subst r. reflexivity.
Qed.

(** X21. [search_and_add] with a blank address or a blank name sends
    nothing and stores nothing: it reads its three answers, says that
    both are required, and returns. *)
Theorem add_needs_address_and_name query more sh :
  strip answer1 = "" \/ strip answer3 = "" ->
  strip answer2 = "" \/ is_Some (int_of (strip answer2)) ->
  let '(r, sh') := search_and_add int_of query (w1 :: w2 :: w3 :: more) sh in
  r = Returned PyNone /\
  node sh' = prompted (node sh) /\
  In IpAndUsernameRequired (map snd (screen sh')).
Proof.
  intros Hblank Hport. rewrite search_and_add_asked. cbv zeta.
  assert (Hp : exists p, (if String.eqb (strip answer2) "" then Some 55888
                          else int_of (strip answer2)) = Some p).
  { destruct Hport as [-> | [p Hp]]; [exists 55888; reflexivity|].
    destruct (String.eqb (strip answer2) ""); eauto. }
  destruct Hp as (p & ->).
  assert (Hguard : negb (String.eqb (strip answer1) "")
                   && negb (String.eqb (strip answer3) "") = false).
  { destruct Hblank as [-> | ->]; cbn; [reflexivity|].
    apply andb_false_r. }
  rewrite Hguard. split; [reflexivity|]. split; [reflexivity|].
  cbn. rewrite map_app. apply in_or_app. right. cbn. auto.
Qed.

(** X22. A port that is not blank and that [int] rejects stops
    [search_and_add] with a [ValueError] once the three answers are
    read, whatever the address and the name: nothing is sent and nothing
    is stored. *)
Theorem add_rejects_bad_port query more sh :
  strip answer2 <> "" ->
  int_of (strip answer2) = None ->
  let '(r, sh') := search_and_add int_of query (w1 :: w2 :: w3 :: more) sh in
  r = Raised ValueError /\
  node sh' = prompted (node sh).
Proof.
  intros Hne Hbad. rewrite search_and_add_asked. cbv zeta.
  apply String.eqb_neq in Hne. rewrite Hne, Hbad. split; reflexivity.
Qed.

(** X23. With an address and a name, [search_and_add] does what
    [add_friend] does with the three answers stripped: the port typed,
    or 55888 when the port is left blank. *)
Theorem add_uses_typed_answers query more sh peer_port :
  strip answer1 <> "" ->
  strip answer3 <> "" ->
  (strip answer2 = "" /\ peer_port = 55888)
    \/ (strip answer2 <> "" /\ int_of (strip answer2) = Some peer_port) ->
  let '(r, sh') := search_and_add int_of query (w1 :: w2 :: w3 :: more) sh in
  r = Returned PyNone /\
  node sh' = snd (add_friend w3 (strip answer3) (strip answer1) peer_port
                    (prompted (node sh))).
Proof.
  intros Hip Hname Hport. rewrite search_and_add_asked. cbv zeta.
  assert (Hp : (if String.eqb (strip answer2) "" then Some 55888
                else int_of (strip answer2)) = Some peer_port).
  { destruct Hport as [(-> & ->) | (Hne & Hp)]; [reflexivity|].
    apply String.eqb_neq in Hne. rewrite Hne. exact Hp. }
  rewrite Hp.
  apply String.eqb_neq in Hip, Hname. rewrite Hip, Hname. cbn [negb andb].
  split; reflexivity.
Qed.

End Adding.

Lemma add_needs_address_and_name_witness :
  let sh' := snd (search_and_add Scene.int_of None
                    [Sample.typing "  " true; Sample.typing "" true;
                     Sample.typing "carol" true] Scene.alice_console) in
  node sh' = prompted Sample.alice_with_bob.
Proof.
  pose proof (add_needs_address_and_name Scene.int_of
    (Sample.typing "  " true) (Sample.typing "" true)
    (Sample.typing "carol" true) "  " "" "carol"
    eq_refl eq_refl eq_refl None [] Scene.alice_console) as H.
  destruct (search_and_add _ _ _ _) as [r sh'].
  destruct H as (_ & Hnode & _).
  - left. vm_compute. reflexivity.
  - left. vm_compute. reflexivity.
  - exact Hnode.
Defined.

Lemma add_rejects_bad_port_witness :
  let '(r, sh') := search_and_add Scene.int_of None
                     [Sample.typing "10.0.0.7" true; Sample.typing "http" true;
                      Sample.typing "carol" true] Scene.alice_console in
  r = Raised ValueError /\ node sh' = prompted Sample.alice_with_bob.
Proof.
  apply (add_rejects_bad_port Scene.int_of
    (Sample.typing "10.0.0.7" true) (Sample.typing "http" true)
    (Sample.typing "carol" true) "10.0.0.7" "http" "carol"
    eq_refl eq_refl eq_refl None [] Scene.alice_console).
  - vm_compute. discriminate.
  - vm_compute. reflexivity.
Defined.

Lemma add_uses_typed_answers_witness :
  let sh' := snd (search_and_add Scene.int_of (Some "carol")
                    [Sample.typing " 10.0.0.7" true; Sample.typing "" true;
                     Sample.typing "carol " true] Scene.alice_console) in
  friend_requests (node sh') !! "carol" = Some ("10.0.0.7", 55888).
Proof.
  pose proof (add_uses_typed_answers Scene.int_of
    (Sample.typing " 10.0.0.7" true) (Sample.typing "" true)
    (Sample.typing "carol " true) " 10.0.0.7" "" "carol "
    eq_refl eq_refl eq_refl (Some "carol") [] Scene.alice_console 55888) as H.
  destruct (search_and_add _ _ _ _) as [r sh'].
  destruct H as (_ & Hnode).
  - vm_compute. discriminate.
  - vm_compute. discriminate.
  - left. split; vm_compute; reflexivity.
  - cbn [snd]. rewrite Hnode. vm_compute. reflexivity.
Defined.

(** X24. The query given to [search_and_add] is printed and nothing
    more: with or without it, the same answers lead to the same outcome
    and the same node. *)
Theorem search_query_is_only_printed int_of query ws sh :
  fst (search_and_add int_of (Some query) ws sh)
    = fst (search_and_add int_of None ws sh) /\
  node (snd (search_and_add int_of (Some query) ws sh))
    = node (snd (search_and_add int_of None ws sh)).
Proof.
  unfold search_and_add.
  generalize (heading (Some query)) (heading None). intros h h'.
  destruct ws as [|w1 [|w2 [|w3 more]]]; rewrite ?ask_unfold;
    try (split; reflexivity);
    repeat match goal with
    | |- context [stdin ?w] => destruct (stdin w)
    end; try (split; reflexivity).
  match goal with
  | |- context [if ?b then Some 55888 else int_of ?t] =>
      destruct (if b then Some 55888 else int_of t); [|split; reflexivity]
  end.
  match goal with
  | |- context [negb ?a && negb ?b] =>
      destruct (negb a && negb b); [|split; reflexivity]
  end.
  unfold in_node. cbn [node world on_node set_world say].
  match goal with
  | |- context [add_friend ?a ?b ?c ?d ?e] =>
      destruct (add_friend a b c d e) as [[]]; split; reflexivity
  end.
Qed.

(** ** The main loop *)

Lemma chat_loop_never_raises name fr ws : forall st e,
  fst (chat_loop name fr ws st) <> Raised e.
Proof.
  induction ws as [|w ws IH]; intros st e; cbn.
  - destruct (decide (current_chat st = Some name)); cbn; discriminate.
  - destruct (decide (current_chat st = Some name)); cbn; [|discriminate].
    destruct (chat_turn w name fr st) as [[[]|[]] st']; cbn;
      try discriminate; apply IH.
Qed.

Lemma chat_with_friend_never_raises name ws st e :
  fst (chat_with_friend name ws st) <> Raised e.
Proof.
  destruct (friends st !! KStr name) as [fr|] eqn:Hfr.
  - rewrite (chat_with_friend_enters name fr ws st Hfr).
    apply chat_loop_never_raises.
  - unfold chat_with_friend. rewrite Hfr. cbn. discriminate.
Qed.

Lemma search_and_add_interrupted int_of query ws sh :
  fst (search_and_add int_of query ws sh) = Raised KeyboardInterrupt ->
  exists w, In w ws /\ stdin w = Interrupt.
Proof.
  unfold search_and_add.
  destruct ws as [|w1 [|w2 [|w3 more]]]; rewrite ?ask_unfold;
    try discriminate;
    repeat match goal with
    | |- context [stdin ?w] => destruct (stdin w) eqn:?
    end; try discriminate;
    try (intros _; eexists; split; [|eassumption]; cbn; auto; fail).
  match goal with
  | |- context [if ?b then Some 55888 else int_of ?t] =>
      destruct (if b then Some 55888 else int_of t); [|discriminate]
  end.
  match goal with
  | |- context [negb ?a && negb ?b] =>
      destruct (negb a && negb b); [|discriminate]
  end.
  unfold in_node. cbn [node world on_node set_world say].
  match goal with
  | |- context [add_friend ?a ?b ?c ?d ?e] =>
      pose proof (add_friend_returns a b c d e) as Hret;
      destruct (add_friend a b c d e) as [[|err] st]; [discriminate|]
  end.
  cbn in Hret. discriminate Hret.
Qed.

Lemma after_call_ends outcome :
  fst (after_call outcome) = Ends -> fst outcome = Raised KeyboardInterrupt.
Proof.
  destruct outcome as [[v|e|] sh]; cbn; try discriminate.
  destruct e; cbn; try discriminate. reflexivity.
Qed.

(** X25. One pass of the main loop ends the loop only when the command
    is [exit] or when a key read during the pass is an interrupt.  No
    other command, no error and no end of input stops the program. *)
Theorem run_ends_only_on_exit_or_interrupt int_of w rest sh :
  fst (run_turn int_of w rest sh) = Ends ->
  (exists answer, stdin w = Line answer /\ strip answer = "exit") \/
  (exists key, In key (w :: rest) /\ stdin key = Interrupt).
Proof.
  unfold run_turn.
  assert (Hgo : fst (match ask w run_prompt sh with
                     | (Ok answer, sh1) =>
                         run_command int_of (strip answer) rest sh1
                     | (Raise e, sh1) => after_call (Raised e, sh1)
                     end) = Ends ->
    (exists answer, stdin w = Line answer /\ strip answer = "exit") \/
    (exists key, In key (w :: rest) /\ stdin key = Interrupt)).
  { destruct (stdin w) as [answer| |] eqn:Hin.
    - rewrite (ask_line w _ answer sh Hin). unfold run_command.
      destruct (String.eqb (strip answer) "exit") eqn:Hexit.
      { intros _. left. exists answer. split; [reflexivity|].
        apply String.eqb_eq, Hexit. }
      intros Hends. right.
      assert (Hrest : exists key, In key rest /\ stdin key = Interrupt).
      { revert Hends.
        destruct (String.eqb (strip answer) "add").
        { intros H. apply after_call_ends in H.
          eapply search_and_add_interrupted, H. }
        destruct (startswith "search " (strip answer)).
        { intros H. apply after_call_ends in H.
          eapply search_and_add_interrupted, H. }
        destruct (startswith "chat " (strip answer)).
        { destruct (negb (String.eqb (strip (slice_from 5 (strip answer))) ""));
            [|discriminate].
          pose proof (chat_with_friend_never_raises
                        (strip (slice_from 5 (strip answer))) rest
                        (node (on_node (log (Input run_prompt))
                                 (set_world w sh))) KeyboardInterrupt) as Hno.
          destruct (chat_with_friend _ rest _) as [outcome st].
          intros H. apply after_call_ends in H. cbn in H, Hno. congruence. }
        destruct (startswith "history " (strip answer)).
        { destruct (negb (String.eqb (strip (slice_from 8 (strip answer))) ""));
            [|discriminate].
          unfold in_node. rewrite show_conversation_run. discriminate. }
        destruct (String.eqb (strip answer) "friends"); [discriminate|].
        destruct (String.eqb (strip answer) "help"); discriminate. }
      destruct Hrest as (key & Hkey & Hi). exists key. split; [right|]; auto.
    - destruct (ask_fails w run_prompt sh) as (e & -> & Hiff);
        [left; exact Hin|].
      intros H. apply after_call_ends in H. cbn in H. injection H as ->.
      destruct Hiff as [_ Hback]. rewrite Hback in Hin by reflexivity.
      discriminate Hin.
    - intros _. right. exists w. split; [left; reflexivity | exact Hin]. }
  destruct (current_chat (node sh)) as [[|c chat]|]; [exact Hgo | | exact Hgo].
  discriminate.
Qed.

Lemma run_ends_only_on_exit_or_interrupt_witness :
  let typed := " exit" +:+ Scene.no_break_space in
  fst (run_turn Scene.int_of (Sample.typing typed true) []
         Scene.alice_console) = Ends /\
  ((exists answer, stdin (Sample.typing typed true) = Line answer
                   /\ strip answer = "exit") \/
   (exists key, In key [Sample.typing typed true]
                /\ stdin key = Interrupt)).
Proof.
  cbv zeta. split; [vm_compute; reflexivity|].
  apply (run_ends_only_on_exit_or_interrupt Scene.int_of
           (Sample.typing (" exit" +:+ Scene.no_break_space) true) []
           Scene.alice_console).
  vm_compute. reflexivity.
Defined.

(** X26. The command [exit] and an interrupt at the prompt both stop
    the program the same way: [running] is cleared, the three maps are
    written to the data file as they are, and the loop ends. *)
Theorem leaving_the_program int_of w rest sh :
  current_chat (node sh) = None ->
  (exists answer, stdin w = Line answer /\ strip answer = "exit")
    \/ stdin w = Interrupt ->
  let '(s, sh') := run_turn int_of w rest sh in
  s = Ends /\
  running sh' = false /\
  data_file (node sh') = written w (snapshot (node sh)) /\
  snapshot (node sh') = snapshot (node sh).
Proof.
  intros Hcur Hkey. unfold run_turn. rewrite Hcur, ask_unfold.
  destruct Hkey as [(answer & -> & Hexit) | ->].
  - unfold run_command. rewrite Hexit. cbn. repeat split.
  - cbn. repeat split.
Qed.

Lemma leaving_the_program_witness :
  let '(s, sh') := run_turn Scene.int_of (Sample.typing "exit" true) []
                     Scene.alice_console in
  s = Ends /\ running sh' = false /\
  data_file (node sh') = Pickled (snapshot Sample.alice_with_bob).
Proof.
  pose proof (leaving_the_program Scene.int_of (Sample.typing "exit" true) []
                Scene.alice_console) as H.
  destruct (run_turn _ _ _ _) as [s sh'].
  destruct H as (Hs & Hr & Hd & _).
  - vm_compute. reflexivity.
  - left. exists "exit". split; vm_compute; reflexivity.
  - split; [exact Hs|]. split; [exact Hr | exact Hd].
Defined.

Lemma usage_free_say l sh :
  l <> ChatUsage -> l <> HistoryUsage -> usage_free sh -> usage_free (say l sh).
Proof.
  intros H1 H2 Hfree. unfold usage_free. cbn.
  apply Forall_app. split; [exact Hfree|]. repeat constructor; assumption.
Qed.

Lemma usage_free_same sh sh' :
  screen sh' = screen sh -> usage_free sh -> usage_free sh'.
Proof. unfold usage_free. intros ->. auto. Qed.

Lemma heading_no_usage query :
  heading query <> ChatUsage /\ heading query <> HistoryUsage.
Proof. destruct query as [[|c q]|]; split; discriminate. Qed.

Lemma search_and_add_usage_free int_of query ws sh :
  usage_free sh -> usage_free (snd (search_and_add int_of query ws sh)).
Proof.
  intros Hfree.
  assert (H0 : usage_free (say AddInstructions (say (heading query) sh))).
  { destruct (heading_no_usage query).
    apply usage_free_say; try discriminate.
    apply usage_free_say; assumption. }
  unfold search_and_add. revert H0.
  generalize (say AddInstructions (say (heading query) sh)). intros sh0 H0.
  destruct ws as [|w1 [|w2 [|w3 more]]]; rewrite ?ask_unfold;
    try exact H0;
    repeat match goal with
    | |- context [stdin ?w] => destruct (stdin w)
    end; try exact H0.
  match goal with
  | |- context [if ?b then Some 55888 else int_of ?t] =>
      destruct (if b then Some 55888 else int_of t); [|exact H0]
  end.
  match goal with
  | |- context [negb ?a && negb ?b] => destruct (negb a && negb b)
  end.
  - unfold in_node. cbn [node world on_node set_world say].
    match goal with
    | |- context [add_friend ?a ?b ?c ?d ?e] =>
        destruct (add_friend a b c d e) as [[]]; exact H0
    end.
  - apply usage_free_say; try discriminate. exact H0.
Qed.

Lemma after_call_usage_free outcome :
  usage_free (snd outcome) -> usage_free (snd (after_call outcome)).
Proof.
  destruct outcome as [[v|e|] sh]; cbn [snd after_call]; auto.
  intros Hfree. unfold in_node, save_data, modify.
  destruct e; cbn; try (apply usage_free_say; [discriminate..|exact Hfree]).
Qed.

(** X27. The two usage lines are never printed.  The command is
    stripped before it is matched, so what follows [chat ] or
    [history ] is never blank, and the branches that print
    [Usage: chat username] and [Usage: history username] cannot be
    reached. *)
Theorem usage_is_never_printed int_of w rest sh :
  usage_free sh -> usage_free (snd (run_turn int_of w rest sh)).
Proof.
  intros Hfree. unfold run_turn.
  assert (Hgo : usage_free (snd
    match ask w run_prompt sh with
    | (Ok answer, sh1) => run_command int_of (strip answer) rest sh1
    | (Raise e, sh1) => after_call (Raised e, sh1)
    end)).
  { rewrite ask_unfold.
    assert (H1 : usage_free (on_node (log (Input run_prompt))
                               (set_world w sh))) by exact Hfree.
    revert H1. generalize (on_node (log (Input run_prompt)) (set_world w sh)).
    intros sh1 H1.
    destruct (stdin w) as [answer| |];
      try (apply after_call_usage_free; exact H1).
    unfold run_command.
    destruct (String.eqb (strip answer) "exit").
    { cbn. apply usage_free_say; [discriminate..|exact H1]. }
    destruct (String.eqb (strip answer) "add").
    { apply after_call_usage_free, search_and_add_usage_free, H1. }
    destruct (startswith "search " (strip answer)).
    { apply after_call_usage_free, search_and_add_usage_free, H1. }
    destruct (startswith "chat " (strip answer)) eqn:Hchat.
    { pose proof (argument_is_never_blank "chat " "tahc" answer eq_refl Hchat)
        as Hname.
      apply String.eqb_neq in Hname. cbn [String.length] in Hname.
      rewrite Hname. cbn [negb].
      destruct (chat_with_friend _ rest (node sh1)) as [outcome st].
      apply after_call_usage_free. exact H1. }
    destruct (startswith "history " (strip answer)) eqn:Hhistory.
    { pose proof (argument_is_never_blank "history " "yrotsih" answer eq_refl
                    Hhistory) as Hname.
      apply String.eqb_neq in Hname. cbn [String.length] in Hname.
      rewrite Hname. cbn [negb].
      unfold in_node. rewrite show_conversation_run. exact H1. }
    destruct (String.eqb (strip answer) "friends").
    { unfold show_friends.
      destruct (size (friends (node sh1)) =? 0)%nat;
        apply usage_free_say; try discriminate; exact H1. }
    destruct (String.eqb (strip answer) "help").
    { apply usage_free_say; [discriminate..|exact H1]. }
    apply usage_free_say; [discriminate..|exact H1]. }
  destruct (current_chat (node sh)) as [[|c chat]|]; auto.
Qed.

Lemma usage_is_never_printed_witness :
  usage_free (snd (run_turn Scene.int_of (Sample.typing "chat " true) []
                     Scene.alice_console)).
Proof.
  apply (usage_is_never_printed Scene.int_of (Sample.typing "chat " true) []
           Scene.alice_console).
  constructor.
Defined.

(** X28. A command that is not [exit], [add], [search ...] or
    [chat ...] only shows things: the pass goes on, the program keeps
    running, nothing is sent, and the friends, the conversations, the
    pending requests and the data file are as before. *)
Theorem showing_commands_change_nothing int_of w rest sh answer :
  current_chat (node sh) = None ->
  stdin w = Line answer ->
  strip answer <> "exit" ->
  strip answer <> "add" ->
  startswith "search " (strip answer) = false ->
  startswith "chat " (strip answer) = false ->
  let '(s, sh') := run_turn int_of w rest sh in
  s = GoesOn /\
  running sh' = running sh /\
  same_data (node sh) (node sh') /\
  exists shown,
    trace (node sh') = trace (node sh) ++ Input run_prompt :: map Print shown.
Proof.
  intros Hcur Hin Hexit Hadd Hsearch Hchat.
  unfold run_turn. rewrite Hcur, ask_unfold, Hin. unfold run_command.
  apply String.eqb_neq in Hexit, Hadd. rewrite Hexit, Hadd, Hsearch, Hchat.
  assert (Hquiet : forall l,
    GoesOn = GoesOn /\
    running (say l (on_node (log (Input run_prompt)) (set_world w sh)))
      = running sh /\
    same_data (node sh)
      (node (say l (on_node (log (Input run_prompt)) (set_world w sh)))) /\
    exists shown,
      trace (node (say l (on_node (log (Input run_prompt)) (set_world w sh))))
        = trace (node sh) ++ Input run_prompt :: map Print shown).
  { intros l. split; [reflexivity|]. split; [reflexivity|].
    split; [repeat split|]. exists []. reflexivity. }
  destruct (startswith "history " (strip answer)).
  { destruct (negb (String.eqb (strip (slice_from 8 (strip answer))) ""));
      [|apply Hquiet].
    unfold in_node. rewrite show_conversation_run.
    cbn [node on_node set_world].
    split; [reflexivity|]. split; [reflexivity|]. split.
    - eapply same_data_trans; [apply same_data_log|].
      eapply same_data_trans; [apply show_same | apply same_data_log].
    - exists (history_lines (strip (slice_from 8 (strip answer)))
                (log (Input run_prompt) (node sh)) ++ [Rule]).
      cbn [trace log]. rewrite show_trace, map_app. cbn [trace log map].
      rewrite <- !app_assoc. reflexivity. }
  destruct (String.eqb (strip answer) "friends").
  { unfold show_friends.
    destruct (size (friends (node _)) =? 0)%nat; apply Hquiet. }
  destruct (String.eqb (strip answer) "help"); apply Hquiet.
Qed.

Lemma showing_commands_change_nothing_witness :
  let '(s, sh') := run_turn Scene.int_of (Sample.typing "history bob" true) []
                     Scene.alice_console in
  s = GoesOn /\ same_data Sample.alice_with_bob (node sh').
Proof.
  pose proof (showing_commands_change_nothing Scene.int_of
                (Sample.typing "history bob" true) [] Scene.alice_console
                "history bob") as H.
  destruct (run_turn _ _ _ _) as [s sh'].
  destruct H as (Hs & _ & Hsame & _);
    try (vm_compute; reflexivity); try (vm_compute; discriminate).
  split; [exact Hs | exact Hsame].
Defined.

(** ** Writes that fail *)

(** X29. How a write of the data file ends has no bearing on anything
    but the data file: with the same message, the same answers and the
    same node, the router returns the same result, stores the same
    friends and conversations, and prints and sends the same, whether the
    write goes through or fails. *)
Theorem disk_outcome_is_invisible w o v st :
  let '(r, st1) := process_incoming_message w v st in
  let '(r', st2) := process_incoming_message (with_disk o w) v st in
  r' = r /\ same_but_file st1 st2.
Proof.
  destruct w as [key ok dsk clock probe].
  destruct v as [| | | | |d]; try (repeat split; fail).
  unfold process_incoming_message, get_method, subscript, hash, input, print,
    save_data, append_message, gets, modify, send_direct_message, bind, ret,
    raise, with_disk.
  cbn [stdin connects disk now probe_ip].
  destruct (d !! "type") as [[| | |t| |]|]; try (repeat split; fail).
  cbn [is_str].
  destruct (String.eqb t "friend_request").
  { destruct (d !! "from_user") as [u|]; [|repeat split].
    destruct (d !! "from_ip") as [ip|]; [|repeat split].
    destruct (d !! "from_port") as [p|]; [|repeat split].
    destruct key as [answer| |]; try (repeat split; fail).
    destruct (String.eqb (strip (lower answer)) "y"); [|repeat split].
    destruct (to_key u) as [k|]; repeat split. }
  destruct (String.eqb t "friend_accept").
  { destruct (d !! "from_user") as [u|]; repeat split. }
  destruct (String.eqb t "friend_reject").
  { destruct (d !! "from_user") as [u|]; repeat split. }
  destruct (String.eqb t "chat_message"); [|repeat split].
  destruct (d !! "from_user") as [u|]; [|repeat split].
  destruct (d !! "content") as [c|]; [|repeat split].
  destruct (to_key u) as [k|]; [|repeat split].
  cbn [conversations].
  destruct (decide (is_Some (conversations st !! k))) as [[l Hl]|Hn].
  - cbn [conversations set_conversations]. rewrite Hl.
    cbn [current_chat set_data_file set_conversations].
    destruct (chat_differs (current_chat st) u); repeat split.
  - cbn [conversations set_conversations]. rewrite lookup_insert_eq.
    cbn [current_chat set_data_file set_conversations].
    destruct (chat_differs (current_chat st) u); repeat split.
Qed.
